(** * Trading-Bot-Workflow: the notifying bot and the plain bot

    A shallow embedding of the two scripts of the repository:

    - the notifying variant ([DiscordNotifier] and [TradingBot] with
      [check_market_hours], [execute_trade], [send_daily_summary], [run]);
    - the plain variant ([Plain.run]), which only logs.

    Python values are modelled as the code has them: [float] is IEEE 754
    binary64 (Rocq's primitive floats), [int] is [Z], [str] is [string].
    The brokerage session and the webhook are the environment: every call is
    recorded in an effect log, and the environment answers each call as a
    function of the log so far, either with a value or with an exception. *)

From Stdlib Require Import Floats.PrimFloat Floats.SpecFloat Floats.FloatOps.
From Stdlib Require Import Floats.FloatAxioms.
From Stdlib Require Import ZArith List String Ascii Bool Lia Permutation.
Import ListNotations.

Open Scope Z_scope.

(** ** Exceptions and results *)

(** The exceptions the code can meet.  [ZeroDivisionError] and
    [OverflowError] are raised by Python's arithmetic; [RemoteError] stands
    for any [Exception] raised by the brokerage client or by the webhook
    client (network failure, rejected order, bad credentials, ...).  All three
    are subclasses of [Exception], so [except Exception] catches them. *)
Inductive PyExn : Type :=
| ZeroDivisionError (msg : string)
| OverflowError (msg : string)
| RemoteError (msg : string).

(** [str(e)] *)
Definition str (e : PyExn) : string :=
  match e with
  | ZeroDivisionError m | OverflowError m | RemoteError m => m
  end.

Inductive Result (A : Type) : Type :=
| Return (a : A)
| Raise (e : PyExn).
Arguments Return {A} a.
Arguments Raise {A} e.

Definition is_raise {A} (r : Result A) : bool :=
  match r with Return _ => false | Raise _ => true end.

(** ** Python numbers *)

Module Py.

(** [float(n)] for an [int]: the nearest binary64 (ties to even);
    [OverflowError] when the rounded value is not finite. *)
Definition float_of_int (n : Z) : Result float :=
  match binary_normalize prec emax n 0 false with
  | S754_infinity _ => Raise (OverflowError "int too large to convert to float")
  | sf => Return (SF2Prim sf)
  end.

(** An [int] as an exact (not normalised) mantissa with exponent 0. *)
Definition sf_of_int (n : Z) : spec_float :=
  match n with
  | Z0 => S754_zero false
  | Zpos p => S754_finite false p 0
  | Zneg p => S754_finite true p 0
  end.

(** [a / b] on floats: Python raises on a zero divisor (of either sign)
    instead of producing an infinity or a NaN. *)
Definition float_truediv (a b : float) : Result float :=
  if PrimFloat.eqb b 0%float
  then Raise (ZeroDivisionError "float division by zero")
  else Return (PrimFloat.div a b).

(** [a / b] on ints: the correctly rounded quotient. *)
Definition int_truediv (a b : Z) : Result float :=
  if Z.eqb b 0
  then Raise (ZeroDivisionError "division by zero")
  else match SFdiv prec emax (sf_of_int a) (sf_of_int b) with
       | S754_infinity _ =>
           Raise (OverflowError "integer division result too large for a float")
       | sf => Return (SF2Prim sf)
       end.

(** [a * n] with [a] a float and [n] an int: [n] is converted first. *)
Definition float_mul_int (a : float) (n : Z) : Result float :=
  match float_of_int n with
  | Return b => Return (PrimFloat.mul a b)
  | Raise e => Raise e
  end.

(** [sum(xs)] over ints, from the left, starting at 0. *)
Definition sum (xs : list Z) : Z := fold_left Z.add xs 0.

(** [len(xs)] *)
Definition len {A} (xs : list A) : Z := Z.of_nat (List.length xs).

(** A number that is an [int] or a [float] ([win_rate] is either). *)
Inductive Num : Type :=
| Int (n : Z)
| Float (x : float).

(** [s.upper()] on ASCII strings: the letters a-z are upper-cased, every
    other byte is kept.  Python also upper-cases letters outside ASCII
    (e-acute becomes E-acute); here their bytes are kept, so the function
    is [str.upper] only on strings of ASCII characters, such as buy and
    sell. *)
Definition upper_ascii (c : ascii) : ascii :=
  let n := nat_of_ascii c in
  if (Nat.leb 97 n && Nat.leb n 122)%bool then ascii_of_nat (n - 32) else c.

Fixpoint upper (s : string) : string :=
  match s with
  | EmptyString => EmptyString
  | String c s' => String (upper_ascii c) (upper s')
  end.

End Py.

(** ** Data model *)

(** The [trade_info] dict built by [execute_trade]. *)
Record TradeInfo : Type := {
  action : string;
  symbol : string;
  quantity : Z;
  price : float;
  total : float
}.

(** The [summary] dict built by [send_daily_summary]; [date] is
    [datetime.now().strftime('%Y-%m-%d')], kept as its format. *)
Record Summary : Type := {
  date : string;
  total_trades : Z;
  pnl : float;
  pnl_percentage : float;
  balance : float;
  win_rate : Py.Num
}.

(** Modelled from the spec: the account entity of the brokerage client, whose
    class is not part of the repository.  The specification's
    AccountSnapshot has the two fields the code reads, [equity] and
    [lastEquity], both account values; they are numbers here, on which the
    code's [float(...)] is the identity. *)
Record Account : Type := {
  equity : float;
  last_equity : float
}.

(** Modelled from the spec: the clock entity of the brokerage client, whose
    class is not part of the repository; [getClock()] yields [isOpen], a
    boolean. *)
Record Clock : Type := { is_open : bool }.

(** The keyword arguments of [api.submit_order]. *)
Record Order : Type := {
  o_symbol : string;
  o_qty : Z;
  o_side : string;
  o_type : string;
  o_time_in_force : string
}.

(** A message body is an f-string: literal text and formatted values.  The
    rendering of numbers and of the current time to text is not modelled; the
    fragments keep what is formatted and how. *)
Inductive Frag : Type :=
| Lit (s : string)                     (* literal text *)
| FmtStr (s : string)                  (* {s} *)
| FmtInt (n : Z)                       (* {n} *)
| FmtFloat (x : float)                 (* {x} *)
| FmtFixed (digits : nat) (x : Py.Num) (* {x:.<digits>f} *)
| FmtNow (fmt : string).               (* datetime.now().strftime(fmt) *)

(** The [discord.Embed] handed to [webhook.send]; its timestamp is the
    current time and is left out. *)
Record Embed : Type := {
  description : list Frag;
  color : Z
}.

Inductive LogLevel : Type := INFO | ERROR.

(** ** Effects, environment, bot state *)

(** What the bot does to the outside world and to its ledger, in order. *)
Inductive Effect : Type :=
| EGetClock                              (* api.get_clock() *)
| EGetAccount                            (* api.get_account() *)
| ESubmitOrder (o : Order)               (* api.submit_order(...) *)
| EWebhookSend (m : Embed)               (* webhook.send(embed=...) *)
| EAppend (t : TradeInfo)                (* daily_trades.append(...) *)
| ELog (level : LogLevel) (msg : list Frag). (* logging.info / .error *)

(** The two external services.  Each answer may depend on everything that
    happened before the call. *)
Record Env : Type := {
  clock_of : list Effect -> Result Clock;
  account_of : list Effect -> Result Account;
  order_of : list Effect -> Order -> Result unit;
  webhook_of : list Effect -> Embed -> Result unit
}.

(** The bot: its trade list, and the log of effects so far. *)
Record World : Type := {
  daily_trades : list TradeInfo;
  effects : list Effect
}.

Definition record_effect (ev : Effect) (w : World) : World :=
  {| daily_trades := daily_trades w; effects := effects w ++ [ev] |}.

(** ** The monad of bot code: environment, state, exceptions *)

Definition M (A : Type) : Type := Env -> World -> Result A * World.

Definition ret {A} (a : A) : M A := fun _ w => (Return a, w).

Definition bind {A B} (m : M A) (k : A -> M B) : M B :=
  fun env w =>
    match m env w with
    | (Return a, w') => k a env w'
    | (Raise e, w') => (Raise e, w')
    end.

Definition raise {A} (e : PyExn) : M A := fun _ w => (Raise e, w).

Definition lift {A} (r : Result A) : M A := fun _ w => (r, w).

(** [try: body except Exception as e: handler e] *)
Definition try_except {A} (body : M A) (handler : PyExn -> M A) : M A :=
  fun env w =>
    match body env w with
    | (Return a, w') => (Return a, w')
    | (Raise e, w') => handler e env w'
    end.

Declare Scope bot_scope.
Delimit Scope bot_scope with bot.
Notation "x <- m ;; k" := (bind m (fun x => k))
  (at level 61, m at next level, right associativity) : bot_scope.
Notation "m ;; k" := (bind m (fun _ => k))
  (at level 61, right associativity) : bot_scope.
Open Scope bot_scope.

(** The primitive actions. *)
Definition api_get_clock : M Clock :=
  fun env w => (clock_of env (effects w), record_effect EGetClock w).

Definition api_get_account : M Account :=
  fun env w => (account_of env (effects w), record_effect EGetAccount w).

Definition api_submit_order (o : Order) : M unit :=
  fun env w => (order_of env (effects w) o, record_effect (ESubmitOrder o) w).

Definition webhook_send (m : Embed) : M unit :=
  fun env w => (webhook_of env (effects w) m, record_effect (EWebhookSend m) w).

Definition logging (level : LogLevel) (msg : list Frag) : M unit :=
  fun _ w => (Return tt, record_effect (ELog level msg) w).

Definition get_daily_trades : M (list TradeInfo) :=
  fun _ w => (Return (daily_trades w), w).

Definition daily_trades_append (t : TradeInfo) : M unit :=
  fun _ w =>
    (Return tt,
     {| daily_trades := daily_trades w ++ [t];
        effects := effects w ++ [EAppend t] |}).

(** ** DiscordNotifier *)

Module DiscordNotifier.

Definition GREEN : Z := 0x00ff00.
Definition RED : Z := 0xff0000.

(** The line break of the message templates. *)
Definition NL : Frag := Lit (String (ascii_of_nat 10) EmptyString).

(** [send_message(content, color)]: one embed, one outbound call. *)
Definition send_message (content : list Frag) (color : Z) : M unit :=
  webhook_send {| description := content; color := color |}.

Definition trade_alert_embed (trade_info : TradeInfo) : Embed :=
  let emoji :=
    if String.eqb (action trade_info) "BUY"
    then "🟢"%string else "🔴"%string in
  let content :=
    [FmtStr emoji; Lit " **Trade Alert**"; NL;
     Lit "Action: "; FmtStr (action trade_info); NL;
     Lit "Symbol: "; FmtStr (symbol trade_info); NL;
     Lit "Quantity: "; FmtInt (quantity trade_info); NL;
     Lit "Price: $"; FmtFixed 2 (Py.Float (price trade_info)); NL;
     Lit "Total: $"; FmtFixed 2 (Py.Float (total trade_info))] in
  let color := if String.eqb (action trade_info) "BUY" then GREEN else RED in
  {| description := content; color := color |}.

(** [send_trade_alert(trade_info)] *)
Definition send_trade_alert (trade_info : TradeInfo) : M unit :=
  let m := trade_alert_embed trade_info in
  send_message (description m) (color m).

Definition daily_summary_embed (summary : Summary) : Embed :=
  let content :=
    [Lit "📊 **Daily Trading Summary**"; NL;
     Lit "Date: "; FmtNow (date summary); NL;
     Lit "Total Trades: "; FmtInt (total_trades summary); NL;
     Lit "P/L: $"; FmtFixed 2 (Py.Float (pnl summary));
     Lit " ("; FmtFixed 2 (Py.Float (pnl_percentage summary)); Lit "%)"; NL;
     Lit "Current Balance: $"; FmtFixed 2 (Py.Float (balance summary)); NL;
     Lit "Win Rate: "; FmtFixed 1 (win_rate summary); Lit "%"] in
  let color := if PrimFloat.leb 0%float (pnl summary) then GREEN else RED in
  {| description := content; color := color |}.

(** [send_daily_summary(summary)] *)
Definition send_daily_summary (summary : Summary) : M unit :=
  let m := daily_summary_embed summary in
  send_message (description m) (color m).

Definition error_alert_embed (error_msg : string) : Embed :=
  {| description :=
       [Lit "⚠️ **Error Alert**"; NL;
        Lit "Error: "; FmtStr error_msg; NL;
        Lit "Time: "; FmtNow "%Y-%m-%d %H:%M:%S"];
     color := RED |}.

(** [send_error_alert(error_msg)] *)
Definition send_error_alert (error_msg : string) : M unit :=
  let m := error_alert_embed error_msg in
  send_message (description m) (color m).

End DiscordNotifier.

(** ** TradingBot (the notifying variant) *)

Module TradingBot.

(** [__init__]: a fresh bot has an empty trade list. *)
Definition init : World := {| daily_trades := []; effects := [] |}.

(** [check_market_hours()] *)
Definition check_market_hours : M bool :=
  clock <- api_get_clock ;;
  ret (is_open clock).

(** The call [api.submit_order(symbol=..., qty=..., side=..., type='market',
    time_in_force='gtc')]. *)
Definition market_order (symbol : string) (qty : Z) (side : string) : Order :=
  {| o_symbol := symbol; o_qty := qty; o_side := side;
     o_type := "market"; o_time_in_force := "gtc" |}.

(** [execute_trade(symbol, qty, side, price)] *)
Definition execute_trade (symbol : string) (qty : Z) (side : string)
    (price : float) : M TradeInfo :=
  try_except
    ((* Execute trade through Alpaca *)
     api_submit_order (market_order symbol qty side) ;;
     (* Prepare trade info *)
     total <- lift (Py.float_mul_int price qty) ;;
     let trade_info :=
       {| action := Py.upper side;
          symbol := symbol;
          quantity := qty;
          price := price;
          total := total |} in
     (* Send Discord notification *)
     DiscordNotifier.send_trade_alert trade_info ;;
     (* Add to daily trades list *)
     daily_trades_append trade_info ;;
     ret trade_info)
    (fun e =>
       DiscordNotifier.send_error_alert
         ("Trade execution failed: " ++ str e)%string ;;
       raise e).

(** The condition of the win-rate count of [send_daily_summary]. *)
Definition counts_as_win (account : Account) (trade : TradeInfo) : bool :=
  (String.eqb (action trade) "BUY"
   && PrimFloat.ltb (price trade) (equity account))
  || (String.eqb (action trade) "SELL"
      && PrimFloat.ltb (equity account) (price trade)).

(** The expression
    [(winning_trades / total_trades * 100) if total_trades > 0 else 0]. *)
Definition compute_win_rate (winning_trades total_trades : Z)
    : Result Py.Num :=
  if Z.ltb 0 total_trades
  then match Py.int_truediv winning_trades total_trades with
       | Raise e => Raise e
       | Return q =>
           match Py.float_mul_int q 100 with
           | Raise e => Raise e
           | Return r => Return (Py.Float r)
           end
       end
  else Return (Py.Int 0).

(** [send_daily_summary()] *)
Definition send_daily_summary : M unit :=
  account <- api_get_account ;;
  trades <- get_daily_trades ;;
  (* Calculate daily statistics *)
  let total_trades := Py.len trades in
  let pnl := PrimFloat.sub (equity account) (last_equity account) in
  ratio <- lift (Py.float_truediv pnl (last_equity account)) ;;
  pnl_percentage <- lift (Py.float_mul_int ratio 100) ;;
  (* Calculate win rate *)
  let winning_trades :=
    Py.sum (flat_map
              (fun trade => if counts_as_win account trade then [1] else [])
              trades) in
  win_rate <- lift (compute_win_rate winning_trades total_trades) ;;
  let summary :=
    {| date := "%Y-%m-%d";
       total_trades := total_trades;
       pnl := pnl;
       pnl_percentage := pnl_percentage;
       balance := equity account;
       win_rate := win_rate |} in
  DiscordNotifier.send_daily_summary summary.

Definition market_closed_content : list Frag := [Lit "Market is closed"].

Definition session_started_content (account : Account) : list Frag :=
  [Lit "Trading session started"; DiscordNotifier.NL;
   Lit "Current balance: $"; FmtFloat (equity account)].

(** [run()] *)
Definition run : M unit :=
  try_except
    (market_open <- check_market_hours ;;
     if negb market_open
     then DiscordNotifier.send_message market_closed_content
            DiscordNotifier.GREEN
     else
       (* Get account information *)
       account <- api_get_account ;;
       DiscordNotifier.send_message (session_started_content account)
         DiscordNotifier.GREEN ;;
       (* Your trading logic here *)
       (* Send end-of-day summary *)
       send_daily_summary)
    (fun e =>
       DiscordNotifier.send_error_alert
         ("Error in trading bot: " ++ str e)%string ;;
       logging ERROR [Lit "Error in trading bot: "; FmtStr (str e)] ;;
       raise e).

End TradingBot.

(** ** The plain variant (trading-script.py): no notifier, no trade list *)

Module Plain.

Definition check_market_hours : M bool :=
  clock <- api_get_clock ;;
  ret (is_open clock).

(** [run()] *)
Definition run : M unit :=
  try_except
    (market_open <- check_market_hours ;;
     if negb market_open
     then logging INFO [Lit "Market is closed"]
     else
       (* Get account information *)
       account <- api_get_account ;;
       logging INFO [Lit "Current balance: $"; FmtFloat (equity account)]
       (* Your trading logic here *))
    (fun e =>
       logging ERROR [Lit "Error in trading bot: "; FmtStr (str e)] ;;
       raise e).

End Plain.

(** * Vocabulary of the properties *)

(** ** Reading the effect log *)

(** [occurs_before a b l]: in the log [l], some occurrence of [a] comes
    before some occurrence of [b]. *)
Definition occurs_before (a b : Effect) (l : list Effect) : Prop :=
  exists l1 l2 l3, l = l1 ++ a :: l2 ++ b :: l3.

Definition is_account_fetch (ev : Effect) : bool :=
  match ev with EGetAccount => true | _ => false end.

Definition is_order (ev : Effect) : bool :=
  match ev with ESubmitOrder _ => true | _ => false end.

Definition is_append (ev : Effect) : bool :=
  match ev with EAppend _ => true | _ => false end.

(** A webhook call whose body is the text "Market is closed". *)
Definition is_market_closed_notice (ev : Effect) : bool :=
  match ev with
  | EWebhookSend {| description := [Lit s] |} => String.eqb s "Market is closed"
  | _ => false
  end.

(** A webhook call whose body opens like a daily summary. *)
Definition is_summary_notice (ev : Effect) : bool :=
  match ev with
  | EWebhookSend {| description := Lit s :: _ |} =>
      String.eqb s "📊 **Daily Trading Summary**"
  | _ => false
  end.

(** A webhook call whose body opens like a trade alert. *)
Definition is_trade_notice (ev : Effect) : bool :=
  match ev with
  | EWebhookSend {| description := FmtStr _ :: Lit s :: _ |} =>
      String.eqb s " **Trade Alert**"
  | _ => false
  end.

Definition count (p : Effect -> bool) (l : list Effect) : nat :=
  List.length (filter p l).

(** ** The embeds of the bot's own messages *)

Definition failure_alert (e : PyExn) : Embed :=
  DiscordNotifier.error_alert_embed ("Trade execution failed: " ++ str e).

Definition run_failure_alert (e : PyExn) : Embed :=
  DiscordNotifier.error_alert_embed ("Error in trading bot: " ++ str e).

Definition run_failure_log (e : PyExn) : Effect :=
  ELog ERROR [Lit "Error in trading bot: "; FmtStr (str e)].

Definition market_closed_embed : Embed :=
  {| description := TradingBot.market_closed_content;
     color := DiscordNotifier.GREEN |}.

(** The outcome of the [except] branch of [execute_trade] entered with
    exception [e] in world [w1]: one error alert, then [e] again, unless the
    alert itself fails. *)
Definition after_failure (env : Env) (e : PyExn) (w1 : World)
    : Result TradeInfo * World :=
  (match webhook_of env (effects w1) (failure_alert e) with
   | Return _ => Raise e
   | Raise e' => Raise e'
   end,
   record_effect (EWebhookSend (failure_alert e)) w1).

(** What the catch-all of [run] reports: an error alert and an error line. *)
Definition is_failure_report (ev : Effect) : Prop :=
  (exists e, ev = EWebhookSend (run_failure_alert e))
  \/ (exists e, ev = run_failure_log e).

(** ** The daily statistics, in closed form *)

(** The binary64 nearest to the quotient of two ints. *)
Definition nearest_ratio (a b : Z) : float :=
  SF2Prim (SFdiv prec emax (Py.sf_of_int a) (Py.sf_of_int b)).

(** The win condition in the words of the specification: a BUY below the
    account's equity, or a SELL above it. *)
Definition spec_winning (equity : float) (t : TradeInfo) : Prop :=
  (action t = "BUY"%string /\ PrimFloat.ltb (price t) equity = true)
  \/ (action t = "SELL"%string /\ PrimFloat.ltb equity (price t) = true).

(** [winning_trades equity l n]: [n] of the trades of [l] are winning. *)
Inductive winning_trades (equity : float) : list TradeInfo -> Z -> Prop :=
| wt_nil : winning_trades equity [] 0
| wt_win t l n :
    spec_winning equity t -> winning_trades equity l n ->
    winning_trades equity (t :: l) (n + 1)
| wt_lose t l n :
    ~ spec_winning equity t -> winning_trades equity l n ->
    winning_trades equity (t :: l) n.

Definition wins (account : Account) (trades : list TradeInfo) : Z :=
  Z.of_nat (List.length (filter (TradingBot.counts_as_win account) trades)).

Definition win_rate_of (account : Account) (trades : list TradeInfo)
    : Py.Num :=
  match trades with
  | [] => Py.Int 0
  | _ => Py.Float (PrimFloat.mul
                     (nearest_ratio (wins account trades) (Py.len trades))
                     100)
  end.

Definition summary_of (account : Account) (trades : list TradeInfo)
    : Summary :=
  let pnl := PrimFloat.sub (equity account) (last_equity account) in
  {| date := "%Y-%m-%d";
     total_trades := Py.len trades;
     pnl := pnl;
     pnl_percentage :=
       PrimFloat.mul (PrimFloat.div pnl (last_equity account)) 100;
     balance := equity account;
     win_rate := win_rate_of account trades |}.

(** The outcome of the catch-all of [run] entered with exception [e] in
    world [w1]: the error alert, then the error line and [e] again; when the
    alert itself fails, its exception instead, and no error line. *)
Definition after_run_failure (env : Env) (e : PyExn) (w1 : World)
    : Result unit * World :=
  let w2 := record_effect (EWebhookSend (run_failure_alert e)) w1 in
  match webhook_of env (effects w1) (run_failure_alert e) with
  | Return _ => (Raise e, record_effect (run_failure_log e) w2)
  | Raise e' => (Raise e', w2)
  end.

(** ** Code that does not touch the trade list *)

Definition keeps_trades {A} (m : M A) : Prop :=
  forall env w, daily_trades (snd (m env w)) = daily_trades w.

(** ** Calls on the bot, for the ledger invariant *)

Inductive BotCall : Type :=
| CallCheckMarketHours
| CallExecuteTrade (sym : string) (qty : Z) (side : string) (px : float)
| CallSendDailySummary
| CallRun.

Definition perform (c : BotCall) (env : Env) (w : World) : World :=
  match c with
  | CallCheckMarketHours => snd (TradingBot.check_market_hours env w)
  | CallExecuteTrade sym qty side px =>
      snd (TradingBot.execute_trade sym qty side px env w)
  | CallSendDailySummary => snd (TradingBot.send_daily_summary env w)
  | CallRun => snd (TradingBot.run env w)
  end.

Fixpoint perform_all (cs : list BotCall) (env : Env) (w : World) : World :=
  match cs with
  | [] => w
  | c :: cs' => perform_all cs' env (perform c env w)
  end.

(** One step of an append-only list. *)
Definition appended_at_most_one (l l' : list TradeInfo) : Prop :=
  l' = l \/ exists t, l' = l ++ [t].

(** ** The exact value of a float *)







(** ** Sample environments and inputs *)

(** Every call succeeds: the market is open or closed as told, and the
    account has the given equity and last equity. *)
Definition calm_env (market_open : bool) (eq le : float) : Env :=
  {| clock_of := fun _ => Return {| is_open := market_open |};
     account_of := fun _ => Return {| equity := eq; last_equity := le |};
     order_of := fun _ _ => Return tt;
     webhook_of := fun _ _ => Return tt |}.

(** The brokerage works and the webhook is down. *)
Definition outage : PyExn := RemoteError "webhook unreachable".

Definition webhook_down_env (market_open : bool) (eq le : float) : Env :=
  {| clock_of := fun _ => Return {| is_open := market_open |};
     account_of := fun _ => Return {| equity := eq; last_equity := le |};
     order_of := fun _ _ => Return tt;
     webhook_of := fun _ _ => Raise outage |}.

(** The brokerage rejects every order. *)
Definition rejection : PyExn := RemoteError "insufficient buying power".

Definition rejecting_env : Env :=
  {| clock_of := fun _ => Return {| is_open := true |};
     account_of := fun _ => Return {| equity := 10500; last_equity := 10000 |};
     order_of := fun _ _ => Raise rejection;
     webhook_of := fun _ _ => Return tt |}.

(** The webhook fails on trade alerts only. *)
Definition alert_down_env : Env :=
  {| clock_of := fun _ => Return {| is_open := true |};
     account_of := fun _ => Return {| equity := 10500; last_equity := 10000 |};
     order_of := fun _ _ => Return tt;
     webhook_of := fun _ m =>
       if is_trade_notice (EWebhookSend m) then Raise outage else Return tt |}.

(** One BUY of 10 at 50. *)
Definition sample_trade : TradeInfo :=
  {| action := "BUY"; symbol := "AAPL"; quantity := 10;
     price := 50; total := 500 |}.

Definition sample_account : Account :=
  {| equity := 10500; last_equity := 10000 |}.

Definition sample_order : Order := TradingBot.market_order "AAPL" 10 "buy".

(** The sample trade in the three environments, on a fresh bot. *)
Definition calm : Env := calm_env true 10500 10000.

Definition sample_buy : Result TradeInfo * World :=
  TradingBot.execute_trade "AAPL" 10 "buy" 50 calm TradingBot.init.

Definition rejected_buy : Result TradeInfo * World :=
  TradingBot.execute_trade "AAPL" 10 "buy" 50 rejecting_env TradingBot.init.

Definition unannounced_buy : Result TradeInfo * World :=
  TradingBot.execute_trade "AAPL" 10 "buy" 50 alert_down_env TradingBot.init.


(** One cycle with the market closed, and summaries on fresh bots. *)
Definition closed_run : Result unit * World :=
  TradingBot.run (calm_env false 10500 10000) TradingBot.init.

Definition empty_summary : Result unit * World :=
  TradingBot.send_daily_summary calm TradingBot.init.

Definition zero_equity_summary : Result unit * World :=
  TradingBot.send_daily_summary (calm_env true 10500 0) TradingBot.init.





(** ** Whole cycles, and what code emits *)

(** A webhook call whose body opens like an error alert. *)
Definition is_error_alert (ev : Effect) : bool :=
  match ev with
  | EWebhookSend {| description := Lit s :: _ |} =>
      String.eqb s "⚠️ **Error Alert**"
  | _ => false
  end.

Definition is_error_log (ev : Effect) : bool :=
  match ev with ELog ERROR _ => true | _ => false end.

Definition is_log (ev : Effect) : bool :=
  match ev with ELog _ _ => true | _ => false end.

Definition is_webhook_call (ev : Effect) : bool :=
  match ev with EWebhookSend _ => true | _ => false end.

(** [emits l P m]: started on the ledger [l], whatever the environment
    answers, running [m] leaves the ledger [l], only adds effects to the
    log, and every effect it adds satisfies [P]. *)
Definition emits {A} (l : list TradeInfo) (P : Effect -> Prop) (m : M A)
    : Prop :=
  forall env w,
    daily_trades w = l ->
    daily_trades (snd (m env w)) = l
    /\ exists new, effects (snd (m env w)) = effects w ++ new /\ Forall P new.

(** A summary, if [ev] is one, is the summary of the ledger [l]. *)
Definition reports_ledger (l : list TradeInfo) (ev : Effect) : Prop :=
  is_summary_notice ev = true ->
  exists account,
    ev = EWebhookSend
           (DiscordNotifier.daily_summary_embed (summary_of account l)).

(** Effects that place no order, touch no ledger and announce no trade. *)
Definition no_trading (ev : Effect) : Prop :=
  is_order ev = false /\ is_append ev = false /\ is_trade_notice ev = false.

(** Effects of the guarded part of a cycle: no trading, and no failure
    report. *)
Definition cycle_step (ev : Effect) : Prop :=
  no_trading ev /\ is_error_alert ev = false /\ is_error_log ev = false.

(** The embed of the session message of [run]. *)
Definition session_started_embed (account : Account) : Embed :=
  {| description := TradingBot.session_started_content account;
     color := DiscordNotifier.GREEN |}.

(** The body of the [try] of [run]. *)
Definition run_body : M unit :=
  market_open <- TradingBot.check_market_hours ;;
  if negb market_open
  then DiscordNotifier.send_message TradingBot.market_closed_content
         DiscordNotifier.GREEN
  else
    account <- api_get_account ;;
    DiscordNotifier.send_message (TradingBot.session_started_content account)
      DiscordNotifier.GREEN ;;
    TradingBot.send_daily_summary.

(** The program of the notifying script:
    [bot = TradingBot(); asyncio.run(bot.run())]. *)
Definition main (env : Env) : Result unit * World :=
  TradingBot.run env TradingBot.init.

(** The program of the plain script: [bot = TradingBot(); bot.run()]. *)
Definition plain_main (env : Env) : Result unit * World :=
  Plain.run env TradingBot.init.

(** The records returned by the calls of [cs], in call order. *)
Definition returned_by (c : BotCall) (env : Env) (w : World)
    : list TradeInfo :=
  match c with
  | CallExecuteTrade sym qty side px =>
      match fst (TradingBot.execute_trade sym qty side px env w) with
      | Return t => [t]
      | Raise _ => []
      end
  | _ => []
  end.

Fixpoint returned_by_all (cs : list BotCall) (env : Env) (w : World)
    : list TradeInfo :=
  match cs with
  | [] => []
  | c :: cs' =>
      returned_by c env w ++ returned_by_all cs' env (perform c env w)
  end.

(** The record [execute_trade] builds once the product is known. *)
Definition record_of (sym : string) (qty : Z) (side : string)
    (px tot : float) : TradeInfo :=
  {| action := Py.upper side; symbol := sym; quantity := qty;
     price := px; total := tot |}.

(** The sample trade with a quantity no float can hold. *)
Definition oversized_buy : Result TradeInfo * World :=
  TradingBot.execute_trade "AAPL" (2 ^ 1024) "buy" 50 calm TradingBot.init.

(** A second sample trade, a SELL that does not win, and ledgers. *)
Definition sample_sell : TradeInfo :=
  {| action := "SELL"; symbol := "MSFT"; quantity := 5;
     price := 300; total := 1500 |}.

Definition sample_hold : TradeInfo :=
  {| action := "HOLD"; symbol := "AAPL"; quantity := 1;
     price := 50; total := 50 |}.

(** ** Tactics for stepping through bot code *)

Ltac unfold_bot :=
  unfold TradingBot.run, TradingBot.send_daily_summary,
    TradingBot.execute_trade, TradingBot.check_market_hours,
    Plain.run, Plain.check_market_hours,
    DiscordNotifier.send_trade_alert, DiscordNotifier.send_daily_summary,
    DiscordNotifier.send_error_alert, DiscordNotifier.send_message,
    DiscordNotifier.trade_alert_embed, DiscordNotifier.daily_summary_embed,
    DiscordNotifier.error_alert_embed,
    try_except, bind, ret, raise, lift,
    api_get_clock, api_get_account, api_submit_order, webhook_send, logging,
    get_daily_trades, daily_trades_append, record_effect.

Ltac step :=
  cbn beta iota zeta delta [effects daily_trades description color fst snd].

(** Case analysis on the next answer of the webhook. *)
Ltac on_webhook :=
  match goal with
  | |- context [webhook_of ?env ?h ?m] =>
      destruct (webhook_of env h m) as [[]|?]; step
  end.

(** * Lemmas *)

(** ** Arithmetic: conversions and quotients that cannot overflow *)

Lemma float_of_int_100 : Py.float_of_int 100 = Return 100%float.
Proof. vm_compute. reflexivity. Qed.

Lemma float_mul_int_100 (x : float) :
  Py.float_mul_int x 100 = Return (PrimFloat.mul x 100).
Proof. unfold Py.float_mul_int. rewrite float_of_int_100. reflexivity. Qed.

(** The number of binary digits of a positive number brackets it. *)
Lemma digits2_pos_bounds (p : positive) :
  2 ^ (Zpos (digits2_pos p) - 1) <= Zpos p < 2 ^ Zpos (digits2_pos p).
Proof.
  induction p as [p IH|p IH|]; cbn [digits2_pos];
    [rewrite Pos2Z.inj_succ .. | cbn; lia];
    set (d := Z.pos (digits2_pos p)) in *;
    replace (Z.succ d - 1) with (Z.succ (d - 1)) by lia;
    rewrite !Z.pow_succ_r by lia; lia.
Qed.

Lemma Zdigits2_nonneg m : 0 <= Zdigits2 m.
Proof. destruct m; cbn; lia. Qed.

Lemma Zdigits2_le (m k : Z) : 0 <= m < 2 ^ k -> 0 <= k -> Zdigits2 m <= k.
Proof.
  intros [Hm Hlt] Hk. destruct m as [|p|p]; cbn; try lia.
  destruct (digits2_pos_bounds p) as [Hlo _].
  assert (H : 2 ^ (Zpos (digits2_pos p) - 1) < 2 ^ k) by lia.
  apply Z.pow_lt_mono_r_iff in H; lia.
Qed.

Lemma Zdigits2_lt_pow (m : Z) : 0 <= m -> m < 2 ^ Zdigits2 m.
Proof.
  intros Hm. destruct m as [|p|p]; cbn -[Z.pow]; try lia.
  apply digits2_pos_bounds.
Qed.

Lemma shr_1_m (mrs : shr_record) :
  0 <= shr_m mrs -> shr_m (shr_1 mrs) = shr_m mrs / 2.
Proof.
  destruct mrs as [m r s]. cbn [shr_m]. intros Hm.
  destruct m as [|[p|p|]|p]; cbn [shr_1 shr_m].
  - reflexivity.
  - apply Z.div_unique with 1; lia.
  - apply Z.div_unique with 0; lia.
  - reflexivity.
  - lia.
Qed.

Lemma iter_shr_1_m (n : positive) : forall mrs,
  0 <= shr_m mrs ->
  shr_m (SpecFloat.iter_pos shr_1 n mrs) = shr_m mrs / 2 ^ Zpos n.
Proof.
  induction n as [n IH|n IH|]; intros mrs Hm; cbn [SpecFloat.iter_pos].
  - assert (H1 : 0 <= shr_m (shr_1 mrs)).
    { rewrite shr_1_m by assumption. apply Z.div_pos; lia. }
    assert (H2 : 0 <= shr_m (SpecFloat.iter_pos shr_1 n (shr_1 mrs))).
    { rewrite IH by assumption. apply Z.div_pos; [lia|].
      apply Z.pow_pos_nonneg; lia. }
    rewrite IH by assumption. rewrite IH by assumption.
    rewrite shr_1_m by assumption.
    rewrite !Z.div_div by (try apply Z.pow_pos_nonneg; lia).
    f_equal.
    replace (Z.pos n~1) with (1 + Z.pos n + Z.pos n) by lia.
    rewrite !Z.pow_add_r by lia. rewrite Z.pow_1_r. lia.
  - assert (H2 : 0 <= shr_m (SpecFloat.iter_pos shr_1 n mrs)).
    { rewrite IH by assumption. apply Z.div_pos; [lia|].
      apply Z.pow_pos_nonneg; lia. }
    rewrite IH by assumption. rewrite IH by assumption.
    rewrite !Z.div_div by (try apply Z.pow_pos_nonneg; lia).
    f_equal.
    replace (Z.pos n~0) with (Z.pos n + Z.pos n) by lia.
    rewrite !Z.pow_add_r by lia. lia.
  - rewrite shr_1_m by assumption. reflexivity.
Qed.

Lemma round_nearest_even_bounds m l :
  m <= round_nearest_even m l <= m + 1.
Proof.
  destruct l as [|[]]; cbn [round_nearest_even]; try lia.
  destruct (Z.even m); lia.
Qed.

Lemma shr_m_of_loc m l : shr_m (shr_record_of_loc m l) = m.
Proof. destruct l as [|[]]; reflexivity. Qed.

(** What [shr_fexp] returns: the mantissa divided by a power of two and the
    exponent raised by as much. *)
Lemma shr_fexp_spec m e l :
  0 <= m ->
  let '(mrs, e') := shr_fexp prec emax m e l in
  let n := Z.max 0 (fexp prec emax (Zdigits2 m + e) - e) in
  e' = e + n /\ shr_m mrs = m / 2 ^ n.
Proof.
  intros Hm. unfold shr_fexp, shr.
  destruct (fexp prec emax (Zdigits2 m + e) - e) as [|p|p] eqn:E.
  - cbn [Z.max]. rewrite shr_m_of_loc. split; [lia|].
    cbn. now rewrite Z.div_1_r.
  - rewrite iter_shr_1_m by (rewrite shr_m_of_loc; assumption).
    rewrite shr_m_of_loc. replace (Z.max 0 (Z.pos p)) with (Z.pos p) by lia.
    split; reflexivity.
  - replace (Z.max 0 (Z.neg p)) with 0 by lia. rewrite shr_m_of_loc.
    split; [lia|]. cbn. now rewrite Z.div_1_r.
Qed.

Lemma fexp_le (d : Z) : d <= emax -> fexp prec emax d <= emax - prec.
Proof. unfold fexp, emin, emax, prec. lia. Qed.

(** Rounding a value below [2 ^ (emax - 1)] does not overflow. *)
Lemma binary_round_aux_finite (sx : bool) (m e : Z) (l : location) :
  0 <= m -> e <= emax - prec -> Zdigits2 m + e <= emax - 1 ->
  forall s, binary_round_aux prec emax sx m e l <> S754_infinity s.
Proof.
  intros Hm He Hd s. unfold binary_round_aux.
  pose proof (shr_fexp_spec m e l Hm) as H1.
  destruct (shr_fexp prec emax m e l) as [mrs1 e1].
  cbv zeta in H1. destruct H1 as [He1 Hm1].
  set (m2 := round_nearest_even (shr_m mrs1) (loc_of_shr_record mrs1)).
  set (n1 := Z.max 0 (fexp prec emax (Zdigits2 m + e) - e)) in *.
  assert (Hn1 : 0 <= n1) by (subst n1; lia).
  assert (Hpow : 0 < 2 ^ n1) by (apply Z.pow_pos_nonneg; lia).
  assert (Hm1' : 0 <= shr_m mrs1) by (rewrite Hm1; apply Z.div_pos; lia).
  pose proof (round_nearest_even_bounds (shr_m mrs1) (loc_of_shr_record mrs1))
    as Hr.
  fold m2 in Hr.
  assert (Hm2 : 0 <= m2) by lia.
  pose proof (shr_fexp_spec m2 e1 loc_Exact Hm2) as H2.
  destruct (shr_fexp prec emax m2 e1 loc_Exact) as [mrs2 e2].
  cbv zeta in H2. destruct H2 as [He2 Hm2'].
  destruct (shr_m mrs2) as [|p|p]; try discriminate.
  assert (Hle : e2 <= emax - prec);
    [|apply Z.leb_le in Hle; rewrite Hle; discriminate].
  assert (He1' : e1 <= emax - prec).
  { pose proof (fexp_le (Zdigits2 m + e)). lia. }
  assert (Hd2 : Zdigits2 m2 + e1 <= emax).
  { set (D := Zdigits2 m) in *.
    assert (HD : 0 <= D) by apply Zdigits2_nonneg.
    assert (Hlt : m < 2 ^ D) by (apply Zdigits2_lt_pow; assumption).
    assert (Hb : m2 < 2 ^ (Z.max (D - n1) 0 + 1)).
    { rewrite Hm1 in Hr.
      assert (Hq : m / 2 ^ n1 < 2 ^ Z.max (D - n1) 0).
      { apply Z.div_lt_upper_bound; [assumption|].
        rewrite <- Z.pow_add_r by lia.
        eapply Z.lt_le_trans; [exact Hlt|].
        apply Z.pow_le_mono_r; lia. }
      rewrite Z.pow_add_r by lia. lia. }
    assert (Zdigits2 m2 <= Z.max (D - n1) 0 + 1) by (apply Zdigits2_le; lia).
    unfold emax, prec in *. lia. }
  pose proof (fexp_le (Zdigits2 m2 + e1) Hd2). lia.
Qed.

(** The quotient of [a <= b] computed by [SFdiv]: mantissa and exponent
    stay far below the overflow threshold. *)
Lemma SFdiv_core_small (a b : positive) :
  (a <= b)%positive ->
  let '(q, e, _) := SFdiv_core_binary prec emax (Zpos a) 0 (Zpos b) 0 in
  0 <= q /\ e <= 0 /\ Zdigits2 q + e <= 1.
Proof.
  intros Hab. unfold SFdiv_core_binary.
  set (e := Z.min _ _).
  assert (He : e <= 0) by (subst e; lia).
  set (m' := match 0 - 0 - e with Z.pos _ => _ | 0 => _ | Z.neg _ => _ end).
  assert (Hm' : m' = Zpos a * 2 ^ (- e)).
  { subst m'. destruct (0 - 0 - e) as [|p|p] eqn:E.
    - replace (- e) with 0 by lia. cbn. lia.
    - rewrite Z.shiftl_mul_pow2 by lia. f_equal. f_equal. lia.
    - lia. }
  clearbody m'.
  pose proof (Z.div_eucl_eq m' (Zpos b) ltac:(lia)) as Hdiv.
  pose proof (Z.mod_pos_bound m' (Zpos b) ltac:(lia)) as Hmod.
  unfold Z.modulo in Hmod.
  destruct (Z.div_eucl m' (Z.pos b)) as [q r].
  assert (Hpow : 0 < 2 ^ (- e)) by (apply Z.pow_pos_nonneg; lia).
  assert (Hq0 : 0 <= q) by nia.
  assert (Hq : q <= 2 ^ (- e)).
  { assert (Zpos b * q <= Zpos b * 2 ^ (- e)) by nia. nia. }
  repeat split; try assumption.
  assert (Zdigits2 q <= - e + 1); [|lia].
  apply Zdigits2_le; [|lia].
  rewrite Z.pow_add_r by lia. lia.
Qed.

(** Dividing an int by a larger positive int neither divides by zero nor
    overflows: the result is the nearest float. *)
Lemma int_truediv_small (a b : Z) :
  0 <= a <= b -> 0 < b ->
  Py.int_truediv a b = Return (nearest_ratio a b).
Proof.
  intros Hab Hb. unfold Py.int_truediv, nearest_ratio.
  replace (Z.eqb b 0) with false by (symmetry; apply Z.eqb_neq; lia).
  destruct b as [|pb|pb]; try lia.
  destruct a as [|pa|pa]; try lia.
  - reflexivity.
  - assert (Hfin : forall s,
      SFdiv prec emax (Py.sf_of_int (Zpos pa)) (Py.sf_of_int (Zpos pb))
      <> S754_infinity s).
    { cbn [Py.sf_of_int SFdiv]. intros s.
      pose proof (SFdiv_core_small pa pb ltac:(lia)) as H.
      destruct (SFdiv_core_binary prec emax (Z.pos pa) 0 (Z.pos pb) 0)
        as [[q e] l].
      destruct H as (Hq & He & Hd).
      apply binary_round_aux_finite; unfold emax, prec; lia. }
    destruct (SFdiv prec emax _ _) as [s|s| |s m e] eqn:E;
      try reflexivity.
    exfalso. exact (Hfin s eq_refl).
Qed.

(** Counting with [sum(1 for ... if ...)] is counting with [filter]. *)
Lemma fold_add_ones (p : TradeInfo -> bool) (l : list TradeInfo) (acc : Z) :
  fold_left Z.add (flat_map (fun t => if p t then [1] else []) l) acc
  = acc + Z.of_nat (List.length (filter p l)).
Proof.
  revert acc. induction l as [|t l IH]; intros acc; cbn [flat_map filter].
  - cbn. lia.
  - destruct (p t); cbn [app fold_left List.length].
    + rewrite IH. lia.
    + apply IH.
Qed.

Lemma sum_ones (account : Account) (l : list TradeInfo) :
  Py.sum (flat_map
            (fun t => if TradingBot.counts_as_win account t then [1] else [])
            l)
  = wins account l.
Proof. unfold Py.sum, wins. rewrite fold_add_ones. lia. Qed.

Lemma wins_bounds (account : Account) (l : list TradeInfo) :
  0 <= wins account l <= Py.len l.
Proof.
  unfold wins, Py.len.
  pose proof (filter_length_le (TradingBot.counts_as_win account) l). lia.
Qed.

(** ** Arithmetic: integers and products that binary64 holds exactly *)

Lemma digits2_pos_iter_xO (m d : positive) :
  Zpos (digits2_pos (Pos.iter xO m d)) = Zpos (digits2_pos m) + Zpos d.
Proof.
  induction d as [|d IH] using Pos.peano_ind.
  - cbn [Pos.iter digits2_pos]. lia.
  - rewrite Pos.iter_succ. cbn [digits2_pos]. lia.
Qed.

Lemma Zdigits2_ge (m k : Z) : 2 ^ (k - 1) <= m -> 0 < m -> k <= Zdigits2 m.
Proof.
  intros Hk Hm.
  pose proof (Zdigits2_lt_pow m ltac:(lia)) as Hlt.
  pose proof (Zdigits2_nonneg m) as Hd.
  destruct (Z.le_gt_cases k (Zdigits2 m)) as [H|H]; [exact H|exfalso].
  assert (2 ^ Zdigits2 m <= 2 ^ (k - 1)) by (apply Z.pow_le_mono_r; lia).
  lia.
Qed.

Lemma Zdigits2_pow_le (m : Z) : 0 < m -> 2 ^ (Zdigits2 m - 1) <= m.
Proof.
  intros Hm. destruct m as [|p|p]; try lia.
  cbn [Zdigits2]. apply digits2_pos_bounds.
Qed.













(** ** Lists of three effects *)

Lemma app_snoc2 {A} (l : list A) (x y : A) :
  (l ++ [x]) ++ [y] = l ++ [x; y].
Proof. rewrite <- app_assoc. reflexivity. Qed.

Lemma app_snoc3 {A} (l : list A) (x y z : A) :
  ((l ++ [x]) ++ [y]) ++ [z] = l ++ [x; y; z].
Proof. rewrite <- !app_assoc. reflexivity. Qed.

(** In a log of three effects, [x] before [y] leaves three placements. *)
Lemma occurs_before_three (a b c x y : Effect) :
  occurs_before x y [a; b; c] ->
  (a = x /\ (b = y \/ c = y)) \/ (b = x /\ c = y).
Proof.
  intros (l1 & l2 & l3 & H).
  destruct l1 as [|u1 [|u2 [|u3 l1]]]; cbn [app] in H.
  - injection H as Ha H. left. split; [assumption|].
    destruct l2 as [|v1 [|v2 l2]]; cbn [app] in H.
    + injection H as Hb _. now left.
    + injection H as _ Hc _. now right.
    + injection H as _ _ H. destruct l2; discriminate.
  - injection H as _ Hb H. right. split; [assumption|].
    destruct l2 as [|v1 l2]; cbn [app] in H.
    + now injection H as Hc _.
    + injection H as _ H. destruct l2; discriminate.
  - injection H as _ _ _ H. destruct l2; discriminate.
  - injection H as _ _ _ H. destruct l1; discriminate.
Qed.

(** ** execute_trade, case by case on what the environment answers *)

Lemma execute_trade_cases (env : Env) (w : World)
    (sym : string) (qty : Z) (side : string) (px : float) :
  TradingBot.execute_trade sym qty side px env w =
  let order := TradingBot.market_order sym qty side in
  let w1 := record_effect (ESubmitOrder order) w in
  match order_of env (effects w) order with
  | Raise e => after_failure env e w1
  | Return _ =>
      match Py.float_mul_int px qty with
      | Raise e => after_failure env e w1
      | Return total =>
          let trade_info :=
            {| action := Py.upper side; symbol := sym; quantity := qty;
               price := px; total := total |} in
          let alert := DiscordNotifier.trade_alert_embed trade_info in
          let w2 := record_effect (EWebhookSend alert) w1 in
          match webhook_of env (effects w1) alert with
          | Raise e => after_failure env e w2
          | Return _ =>
              (Return trade_info,
               {| daily_trades := daily_trades w ++ [trade_info];
                  effects := effects w2 ++ [EAppend trade_info] |})
          end
      end
  end.
Proof.
  unfold after_failure, failure_alert. unfold_bot. step.
  destruct (order_of env (effects w) _) as [[]|e]; step.
  - destruct (Py.float_mul_int px qty) as [total|e]; step.
    + on_webhook; [reflexivity | on_webhook; reflexivity].
    + on_webhook; reflexivity.
  - on_webhook; reflexivity.
Qed.

(** A call that returns went through all three steps. *)
Lemma execute_trade_success (env : Env) (w : World)
    (sym : string) (qty : Z) (side : string) (px : float)
    (t : TradeInfo) (w' : World) :
  TradingBot.execute_trade sym qty side px env w = (Return t, w') ->
  exists total,
    Py.float_mul_int px qty = Return total
    /\ t = {| action := Py.upper side; symbol := sym; quantity := qty;
              price := px; total := total |}
    /\ order_of env (effects w) (TradingBot.market_order sym qty side)
       = Return tt
    /\ webhook_of env
         (effects w ++ [ESubmitOrder (TradingBot.market_order sym qty side)])
         (DiscordNotifier.trade_alert_embed t) = Return tt
    /\ w' = {| daily_trades := daily_trades w ++ [t];
               effects := effects w ++
                 [ESubmitOrder (TradingBot.market_order sym qty side);
                  EWebhookSend (DiscordNotifier.trade_alert_embed t);
                  EAppend t] |}.
Proof.
  rewrite execute_trade_cases. cbv zeta. unfold after_failure.
  destruct (order_of env (effects w) _) as [[]|e] eqn:Ho.
  - destruct (Py.float_mul_int px qty) as [total|e] eqn:Hm.
    + cbn [record_effect effects daily_trades].
      destruct (webhook_of env _ (DiscordNotifier.trade_alert_embed _))
        as [[]|e] eqn:Hw.
      * intros H. injection H as <- <-. exists total.
        rewrite app_snoc3. repeat split; assumption.
      * destruct (webhook_of env _ (failure_alert _)); intros H; discriminate H.
    + destruct (webhook_of env _ (failure_alert _)); intros H; discriminate H.
  - destruct (webhook_of env _ (failure_alert _)); intros H; discriminate H.
Qed.

(** * Properties of the bot *)

(** ** C1: the order is refused *)

(** C1. When [api.submit_order] raises [e], [execute_trade] makes exactly one
    further call, the error alert for [e]; it leaves the trade list as it
    was; and it ends by raising: [e] itself when the alert went out, the
    webhook's exception when the alert failed too. *)
Theorem execute_trade_order_failure (env : Env) (w : World)
    (sym : string) (qty : Z) (side : string) (px : float) (e : PyExn) :
  order_of env (effects w) (TradingBot.market_order sym qty side) = Raise e ->
  let order := TradingBot.market_order sym qty side in
  let out := TradingBot.execute_trade sym qty side px env w in
  effects (snd out)
  = effects w ++ [ESubmitOrder order; EWebhookSend (failure_alert e)]
  /\ daily_trades (snd out) = daily_trades w
  /\ is_raise (fst out) = true
  /\ (webhook_of env (effects w ++ [ESubmitOrder order]) (failure_alert e)
      = Return tt -> fst out = Raise e)
  /\ (forall e',
        webhook_of env (effects w ++ [ESubmitOrder order]) (failure_alert e)
        = Raise e' -> fst out = Raise e').
Proof.
  intros Ho order out. subst out order. rewrite execute_trade_cases.
  cbv zeta. rewrite Ho. unfold after_failure.
  cbn [fst snd record_effect effects daily_trades].
  rewrite app_snoc2. repeat split.
  - destruct (webhook_of env _ _); reflexivity.
  - intros ->. reflexivity.
  - intros e' ->. reflexivity.
Qed.

(** The sample trade, refused by the brokerage. *)
Lemma execute_trade_order_failure_witness :
  effects (snd rejected_buy)
  = [ESubmitOrder sample_order; EWebhookSend (failure_alert rejection)]
  /\ daily_trades (snd rejected_buy) = []
  /\ fst rejected_buy = Raise rejection.
Proof.
  destruct (execute_trade_order_failure rejecting_env TradingBot.init
              "AAPL" 10 "buy" 50 rejection eq_refl) as (He & Ht & _ & Hr & _).
  split; [exact He | split; [exact Ht | exact (Hr eq_refl)]].
Defined.

(** ** C3: the order of the alert and the append *)

(** C3, as stated, fails.  In a run where every call succeeds, the effects of
    [execute_trade] are the order, the trade alert and the append, in this
    order: the append does not come before the alert. *)
Lemma append_before_alert_counterexample :
  fst sample_buy = Return sample_trade
  /\ effects (snd sample_buy)
     = [ESubmitOrder sample_order;
        EWebhookSend (DiscordNotifier.trade_alert_embed sample_trade);
        EAppend sample_trade]
  /\ ~ occurs_before
        (EAppend sample_trade)
        (EWebhookSend (DiscordNotifier.trade_alert_embed sample_trade))
        (effects (snd sample_buy)).
Proof.
  assert (Hr : fst sample_buy = Return sample_trade)
    by (vm_compute; reflexivity).
  assert (He : effects (snd sample_buy)
               = [ESubmitOrder sample_order;
                  EWebhookSend
                    (DiscordNotifier.trade_alert_embed sample_trade);
                  EAppend sample_trade])
    by (vm_compute; reflexivity).
  split; [exact Hr|]. split; [exact He|].
  rewrite He. intros H. apply occurs_before_three in H.
  destruct H as [[H _]|[H _]]; discriminate H.
Qed.

(** C3, amended.  Every call of [execute_trade] that returns has made
    exactly three effects, in this order: the order submission, the trade
    alert, the append of the returned record.  The alert comes before the
    append, never after it. *)
Theorem execute_trade_alert_then_append (env : Env) (w : World)
    (sym : string) (qty : Z) (side : string) (px : float)
    (t : TradeInfo) (w' : World) :
  TradingBot.execute_trade sym qty side px env w = (Return t, w') ->
  let alert := EWebhookSend (DiscordNotifier.trade_alert_embed t) in
  let new := [ESubmitOrder (TradingBot.market_order sym qty side);
              alert; EAppend t] in
  effects w' = effects w ++ new
  /\ daily_trades w' = daily_trades w ++ [t]
  /\ occurs_before alert (EAppend t) new
  /\ ~ occurs_before (EAppend t) alert new.
Proof.
  intros H alert new.
  destruct (execute_trade_success _ _ _ _ _ _ _ _ H)
    as (total & _ & _ & _ & _ & ->).
  cbn [effects daily_trades]. repeat split.
  - exists [ESubmitOrder (TradingBot.market_order sym qty side)], [], [].
    reflexivity.
  - intros Hb. apply occurs_before_three in Hb.
    destruct Hb as [[Hb _]|[Hb _]]; discriminate Hb.
Qed.

(** The sample trade, with every call succeeding. *)
Lemma execute_trade_alert_then_append_witness :
  sample_buy = (Return sample_trade, snd sample_buy)
  /\ effects (snd sample_buy)
     = [ESubmitOrder sample_order;
        EWebhookSend (DiscordNotifier.trade_alert_embed sample_trade);
        EAppend sample_trade]
  /\ daily_trades (snd sample_buy) = [sample_trade].
Proof.
  assert (Hout : sample_buy = (Return sample_trade, snd sample_buy))
    by (vm_compute; reflexivity).
  destruct (execute_trade_alert_then_append calm TradingBot.init
              "AAPL" 10 "buy" 50 sample_trade (snd sample_buy) Hout)
    as (He & Ht & _).
  split; [exact Hout | split; [exact He | exact Ht]].
Defined.

(** ** C6: the record that is built *)




(** ** send_daily_summary, case by case *)

Lemma compute_win_rate_of (account : Account) (trades : list TradeInfo) :
  TradingBot.compute_win_rate (wins account trades) (Py.len trades)
  = Return (win_rate_of account trades).
Proof.
  unfold TradingBot.compute_win_rate, win_rate_of.
  destruct trades as [|t l]; [reflexivity|].
  set (trades := t :: l).
  assert (Hlen : 0 < Py.len trades) by (unfold Py.len; cbn; lia).
  replace (Z.ltb 0 (Py.len trades)) with true
    by (symmetry; apply Z.ltb_lt; exact Hlen).
  rewrite int_truediv_small by (apply wins_bounds || exact Hlen).
  rewrite float_mul_int_100. reflexivity.
Qed.

(** With the account fetched, [send_daily_summary] either stops on the
    division by a zero [last_equity], or sends the summary of the closed
    form. *)
Lemma send_daily_summary_cases (env : Env) (w : World) (account : Account) :
  account_of env (effects w) = Return account ->
  TradingBot.send_daily_summary env w =
  let w1 := record_effect EGetAccount w in
  if PrimFloat.eqb (last_equity account) 0
  then (Raise (ZeroDivisionError "float division by zero"), w1)
  else
    let m :=
      DiscordNotifier.daily_summary_embed
        (summary_of account (daily_trades w)) in
    (webhook_of env (effects w1) m, record_effect (EWebhookSend m) w1).
Proof.
  intros Ha. unfold TradingBot.send_daily_summary.
  unfold bind at 1. unfold api_get_account at 1. rewrite Ha.
  unfold bind at 1. unfold get_daily_trades at 1.
  cbn beta iota zeta delta [daily_trades record_effect].
  unfold bind at 1. unfold lift at 1. unfold Py.float_truediv.
  destruct (PrimFloat.eqb (last_equity account) 0); [reflexivity|].
  unfold bind at 1. unfold lift at 1. rewrite float_mul_int_100.
  unfold bind at 1. unfold lift at 1.
  rewrite sum_ones, compute_win_rate_of.
  cbn beta iota zeta.
  unfold DiscordNotifier.send_daily_summary, DiscordNotifier.send_message,
    webhook_send.
  cbn beta iota zeta delta [effects].
  unfold summary_of.
  destruct (webhook_of env _ _) as [[]|e]; reflexivity.
Qed.

Lemma send_daily_summary_fetch_failure (env : Env) (w : World) (e : PyExn) :
  account_of env (effects w) = Raise e ->
  TradingBot.send_daily_summary env w = (Raise e, record_effect EGetAccount w).
Proof.
  intros Ha. unfold TradingBot.send_daily_summary.
  unfold bind at 1. unfold api_get_account at 1. rewrite Ha. reflexivity.
Qed.

(** The win condition of the code is the one of the specification. *)
Lemma counts_as_win_spec (account : Account) (t : TradeInfo) :
  TradingBot.counts_as_win account t = true
  <-> spec_winning (equity account) t.
Proof.
  unfold TradingBot.counts_as_win, spec_winning.
  rewrite orb_true_iff, !andb_true_iff, !String.eqb_eq. reflexivity.
Qed.



(** ** C2: the win-rate heuristic *)



(** ** C4: profit and loss, and the unguarded division *)

(** C4.  [send_daily_summary] fetches the account once, and computes
    [pnl = equity - last_equity] and
    [pnl_percentage = pnl / last_equity * 100] from it.  With a nonzero
    [last_equity] the computation goes through, for every trade list, and the
    summary carrying these two numbers is handed to the webhook.  With a zero
    [last_equity] (of either sign) the division raises [ZeroDivisionError]
    right after the fetch, and nothing is sent. *)
Theorem daily_summary_pnl (env : Env) (w : World) (account : Account) :
  account_of env (effects w) = Return account ->
  let out := TradingBot.send_daily_summary env w in
  let pnl_ := PrimFloat.sub (equity account) (last_equity account) in
  (PrimFloat.eqb (last_equity account) 0 = false ->
   exists s,
     pnl s = pnl_
     /\ pnl_percentage s
        = PrimFloat.mul (PrimFloat.div pnl_ (last_equity account)) 100
     /\ balance s = equity account
     /\ effects (snd out)
        = effects w ++
          [EGetAccount; EWebhookSend (DiscordNotifier.daily_summary_embed s)]
     /\ fst out
        = webhook_of env (effects w ++ [EGetAccount])
            (DiscordNotifier.daily_summary_embed s))
  /\ (PrimFloat.eqb (last_equity account) 0 = true ->
      fst out = Raise (ZeroDivisionError "float division by zero")
      /\ effects (snd out) = effects w ++ [EGetAccount]).
Proof.
  intros Ha out pnl_. subst out.
  rewrite (send_daily_summary_cases env w account Ha).
  split; intros Hle; rewrite Hle.
  - exists (summary_of account (daily_trades w)).
    cbn [snd fst record_effect effects daily_trades]. rewrite app_snoc2.
    repeat split.
  - split; reflexivity.
Qed.

(** Equity 10500 against a last equity of 10000, and against 0. *)
Lemma daily_summary_pnl_witness :
  (exists s,
     pnl s = 500%float /\ pnl_percentage s = 5%float
     /\ effects (snd empty_summary)
        = [EGetAccount; EWebhookSend (DiscordNotifier.daily_summary_embed s)])
  /\ fst zero_equity_summary
     = Raise (ZeroDivisionError "float division by zero")
  /\ effects (snd zero_equity_summary) = [EGetAccount].
Proof.
  split.
  - destruct (daily_summary_pnl calm TradingBot.init sample_account eq_refl)
      as [Hok _].
    destruct (Hok eq_refl) as (s & Hp & Hpp & _ & He & _).
    exists s. split; [|split].
    + rewrite Hp. vm_compute. reflexivity.
    + rewrite Hpp. vm_compute. reflexivity.
    + exact He.
  - destruct (daily_summary_pnl (calm_env true 10500 0) TradingBot.init
                {| equity := 10500; last_equity := 0 |} eq_refl) as [_ Hz].
    destruct (Hz eq_refl) as [Hr He]. split; [exact Hr | exact He].
Defined.

(** ** C7: the end-to-end scenario *)

Lemma float_mul_int_50_10 : Py.float_mul_int 50 10 = Return 500%float.
Proof. vm_compute. reflexivity. Qed.

(** C7.  One BUY of 10 at 50 is executed on an empty ledger, then the
    account reports equity 10500 and last equity 10000.  The trade's total is
    500, and the summary carries one trade, a profit of 500, a percentage of
    5.0 and a balance of 10500 (and a win rate of 100.0). *)
Theorem end_to_end_scenario (env : Env) (w : World) (sym side : string)
    (t : TradeInfo) (w1 : World) :
  Py.upper side = "BUY"%string ->
  daily_trades w = [] ->
  TradingBot.execute_trade sym 10 side 50 env w = (Return t, w1) ->
  account_of env (effects w1)
  = Return {| equity := 10500; last_equity := 10000 |} ->
  let out := TradingBot.send_daily_summary env w1 in
  total t = 500%float
  /\ daily_trades w1 = [t]
  /\ exists s,
       effects (snd out)
       = effects w1 ++
         [EGetAccount; EWebhookSend (DiscordNotifier.daily_summary_embed s)]
       /\ total_trades s = 1
       /\ pnl s = 500%float
       /\ pnl_percentage s = 5%float
       /\ balance s = 10500%float
       /\ win_rate s = Py.Float 100.
Proof.
  intros Hside Hw Hexec Ha out.
  destruct (execute_trade_success _ _ _ _ _ _ _ _ Hexec)
    as (tot & Hm & Ht & _ & _ & Hw1).
  rewrite float_mul_int_50_10 in Hm. injection Hm as <-.
  rewrite Hside in Ht.
  assert (Htrades : daily_trades w1 = [t]).
  { rewrite Hw1. cbn [daily_trades]. rewrite Hw. reflexivity. }
  split; [rewrite Ht; reflexivity|]. split; [exact Htrades|].
  subst out. rewrite (send_daily_summary_cases env w1 _ Ha).
  cbn [last_equity].
  replace (PrimFloat.eqb 10000 0) with false by (vm_compute; reflexivity).
  cbn [snd fst record_effect effects daily_trades]. rewrite app_snoc2.
  rewrite Htrades, Ht.
  eexists. split; [reflexivity|].
  repeat split; vm_compute; reflexivity.
Qed.

(** The scenario in the calm environment. *)
Lemma end_to_end_scenario_witness :
  sample_buy = (Return sample_trade, snd sample_buy)
  /\ total sample_trade = 500%float
  /\ exists s,
       effects (snd (TradingBot.send_daily_summary calm (snd sample_buy)))
       = effects (snd sample_buy) ++
         [EGetAccount; EWebhookSend (DiscordNotifier.daily_summary_embed s)]
       /\ pnl s = 500%float
       /\ pnl_percentage s = 5%float.
Proof.
  assert (Hexec : sample_buy = (Return sample_trade, snd sample_buy))
    by (vm_compute; reflexivity).
  destruct (end_to_end_scenario calm TradingBot.init "AAPL" "buy"
              sample_trade (snd sample_buy) eq_refl eq_refl Hexec eq_refl)
    as (Ht & _ & s & He & _ & Hp & Hpp & _).
  split; [exact Hexec|]. split; [exact Ht|].
  exists s. split; [exact He | split; [exact Hp | exact Hpp]].
Defined.

(** ** C9: the trade alert fails after the order went through *)

(** C9.  The order is accepted, the record is built, and the trade alert
    raises [e].  Then [execute_trade] sends the error alert for [e] and ends
    by raising; the record is not appended.  The ledger, and so every later
    summary (its number of trades and its win rate), is what it would be had
    the order never been placed. *)
Theorem execute_trade_alert_failure (env : Env) (w : World)
    (sym : string) (qty : Z) (side : string) (px tot : float) (e : PyExn) :
  let order := TradingBot.market_order sym qty side in
  let t := {| action := Py.upper side; symbol := sym; quantity := qty;
              price := px; total := tot |} in
  let alert := DiscordNotifier.trade_alert_embed t in
  order_of env (effects w) order = Return tt ->
  Py.float_mul_int px qty = Return tot ->
  webhook_of env (effects w ++ [ESubmitOrder order]) alert = Raise e ->
  let out := TradingBot.execute_trade sym qty side px env w in
  effects (snd out)
  = effects w ++
    [ESubmitOrder order; EWebhookSend alert; EWebhookSend (failure_alert e)]
  /\ daily_trades (snd out) = daily_trades w
  /\ is_raise (fst out) = true
  /\ (webhook_of env (effects w ++ [ESubmitOrder order; EWebhookSend alert])
        (failure_alert e) = Return tt ->
      fst out = Raise e)
  /\ (forall env' account,
        account_of env' (effects (snd out)) = Return account ->
        PrimFloat.eqb (last_equity account) 0 = false ->
        let s := summary_of account (daily_trades w) in
        total_trades s = Py.len (daily_trades w)
        /\ win_rate s = win_rate_of account (daily_trades w)
        /\ effects (snd (TradingBot.send_daily_summary env' (snd out)))
           = effects (snd out) ++
             [EGetAccount;
              EWebhookSend (DiscordNotifier.daily_summary_embed s)]).
Proof.
  intros order t alert Ho Hm Hw out. subst out order alert t.
  rewrite execute_trade_cases. cbv zeta. rewrite Ho, Hm.
  cbn [record_effect effects daily_trades]. rewrite Hw.
  unfold after_failure. cbn [fst snd record_effect effects daily_trades].
  split; [apply app_snoc3|]. split; [reflexivity|]. split; [|split].
  - destruct (webhook_of env _ (failure_alert e)); reflexivity.
  - rewrite app_snoc2. intros ->. reflexivity.
  - intros env' account Ha Hle.
    split; [reflexivity|]. split; [reflexivity|].
    match goal with
    | |- context [TradingBot.send_daily_summary env' ?w0] =>
        rewrite (send_daily_summary_cases env' w0 account Ha)
    end.
    rewrite Hle. cbn [snd record_effect effects daily_trades].
    rewrite <- !app_assoc. reflexivity.
Qed.

(** The sample trade, with the webhook refusing trade alerts. *)
Lemma execute_trade_alert_failure_witness :
  effects (snd unannounced_buy)
  = [ESubmitOrder sample_order;
     EWebhookSend (DiscordNotifier.trade_alert_embed sample_trade);
     EWebhookSend (failure_alert outage)]
  /\ daily_trades (snd unannounced_buy) = []
  /\ fst unannounced_buy = Raise outage
  /\ total_trades (summary_of sample_account (daily_trades TradingBot.init))
     = 0.
Proof.
  destruct (execute_trade_alert_failure alert_down_env TradingBot.init
              "AAPL" 10 "buy" 50 500 outage
              eq_refl float_mul_int_50_10 eq_refl)
    as (He & Ht & _ & Hr & Hs).
  destruct (Hs alert_down_env sample_account eq_refl eq_refl) as (Hn & _).
  split; [exact He|]. split; [exact Ht|]. split; [exact (Hr eq_refl)|].
  exact Hn.
Defined.

(** ** C10: no trades, no division *)

(** C10.  With an empty trade list the win rate is the integer 0, and the
    summary that is sent carries it with a count of 0 trades.  The quotient
    of the win rate is taken only when the total is positive: the win-rate
    expression never raises [ZeroDivisionError], whatever its operands. *)
Theorem win_rate_without_trades (env : Env) (w : World) (account : Account) :
  daily_trades w = [] ->
  account_of env (effects w) = Return account ->
  let out := TradingBot.send_daily_summary env w in
  TradingBot.compute_win_rate
    (wins account (daily_trades w)) (Py.len (daily_trades w))
  = Return (Py.Int 0)
  /\ (forall winning,
        TradingBot.compute_win_rate winning 0 = Return (Py.Int 0))
  /\ (forall winning total msg,
        TradingBot.compute_win_rate winning total
        <> Raise (ZeroDivisionError msg))
  /\ (PrimFloat.eqb (last_equity account) 0 = false ->
      exists s,
        effects (snd out)
        = effects w ++
          [EGetAccount; EWebhookSend (DiscordNotifier.daily_summary_embed s)]
        /\ total_trades s = 0
        /\ win_rate s = Py.Int 0
        /\ fst out
           = webhook_of env (effects w ++ [EGetAccount])
               (DiscordNotifier.daily_summary_embed s)).
Proof.
  intros Hw Ha out. split; [|split; [|split]].
  - rewrite Hw. reflexivity.
  - reflexivity.
  - intros winning total msg. unfold TradingBot.compute_win_rate.
    destruct (Z.ltb 0 total) eqn:Hlt; [|discriminate].
    apply Z.ltb_lt in Hlt. unfold Py.int_truediv.
    replace (Z.eqb total 0) with false by (symmetry; apply Z.eqb_neq; lia).
    destruct (SFdiv prec emax _ _); try discriminate;
      rewrite float_mul_int_100; discriminate.
  - intros Hle. exists (summary_of account (daily_trades w)).
    subst out. rewrite (send_daily_summary_cases env w account Ha), Hle.
    cbn [snd fst record_effect effects daily_trades]. rewrite app_snoc2.
    rewrite Hw. repeat split.
Qed.

(** The summary of a fresh bot. *)
Lemma win_rate_without_trades_witness :
  TradingBot.compute_win_rate 0 0 = Return (Py.Int 0)
  /\ exists s,
       effects (snd empty_summary)
       = [EGetAccount; EWebhookSend (DiscordNotifier.daily_summary_embed s)]
       /\ total_trades s = 0
       /\ win_rate s = Py.Int 0.
Proof.
  destruct (win_rate_without_trades calm TradingBot.init sample_account
              eq_refl eq_refl)
    as (Hc & _ & _ & Hs).
  destruct (Hs eq_refl) as (s & He & Hn & Hr & _).
  split; [exact Hc|]. exists s.
  split; [exact He | split; [exact Hn | exact Hr]].
Defined.

(** ** run with the market closed *)

Lemma run_closed_cases (env : Env) (w : World) :
  clock_of env (effects w) = Return {| is_open := false |} ->
  TradingBot.run env w =
  let w1 := record_effect EGetClock w in
  let w2 := record_effect (EWebhookSend market_closed_embed) w1 in
  match webhook_of env (effects w1) market_closed_embed with
  | Return _ => (Return tt, w2)
  | Raise e => after_run_failure env e w2
  end.
Proof.
  intros Hc. unfold after_run_failure, run_failure_alert, run_failure_log,
    market_closed_embed.
  unfold_bot. step. rewrite Hc. step. cbn [is_open negb]. step.
  on_webhook; [reflexivity|]. on_webhook; reflexivity.
Qed.

Lemma plain_run_closed (env : Env) (w : World) :
  clock_of env (effects w) = Return {| is_open := false |} ->
  Plain.run env w =
  (Return tt,
   {| daily_trades := daily_trades w;
      effects := effects w ++ [EGetClock; ELog INFO [Lit "Market is closed"]]
   |}).
Proof.
  intros Hc. unfold_bot. step. rewrite Hc. step. cbn [is_open negb]. step.
  rewrite app_snoc2. reflexivity.
Qed.

(** ** C5: the market is closed *)

(** C5.  When the clock says the market is closed, [run] makes the clock
    query and one webhook call with the text "Market is closed", and nothing
    else on the normal path: no account fetch, no order, no append, no trade
    alert, no summary; the trade list is as it was.  When the webhook takes
    the message, [run] returns.  When the webhook fails, the only further
    effects are the catch-all's own failure reports (its error alert and its
    error line), and [run] ends by raising.  The plain variant, which has no
    notifier, writes the line "Market is closed" to the log, once, and
    returns, having made no call but the clock query. *)
Theorem run_market_closed (env : Env) (w : World) :
  clock_of env (effects w) = Return {| is_open := false |} ->
  let out := TradingBot.run env w in
  let notice := EWebhookSend market_closed_embed in
  (exists reports,
    let new := [EGetClock; notice] ++ reports in
    effects (snd out) = effects w ++ new
    /\ Forall is_failure_report reports
    /\ count is_market_closed_notice new = 1%nat
    /\ count is_account_fetch new = 0%nat
    /\ count is_order new = 0%nat
    /\ count is_append new = 0%nat
    /\ count is_trade_notice new = 0%nat
    /\ count is_summary_notice new = 0%nat
    /\ daily_trades (snd out) = daily_trades w
    /\ (webhook_of env (effects w ++ [EGetClock]) market_closed_embed
        = Return tt -> fst out = Return tt /\ reports = [])
    /\ (forall e,
          webhook_of env (effects w ++ [EGetClock]) market_closed_embed
          = Raise e -> is_raise (fst out) = true))
  /\ Plain.run env w
     = (Return tt,
        {| daily_trades := daily_trades w;
           effects :=
             effects w ++ [EGetClock; ELog INFO [Lit "Market is closed"]] |}).
Proof.
  intros Hc out notice. split; [|exact (plain_run_closed env w Hc)].
  subst out. rewrite (run_closed_cases env w Hc).
  cbv zeta. cbn [record_effect effects daily_trades].
  destruct (webhook_of env (effects w ++ [EGetClock]) market_closed_embed)
    as [[]|e].
  - exists []. cbn [fst snd record_effect effects daily_trades app].
    rewrite app_snoc2. repeat split; try reflexivity.
    + constructor.
    + intros e H. discriminate H.
  - unfold after_run_failure. cbn [record_effect effects daily_trades].
    destruct (webhook_of env _ (run_failure_alert e)) as [[]|e'].
    + exists [EWebhookSend (run_failure_alert e); run_failure_log e].
      cbn [fst snd record_effect effects daily_trades app].
      rewrite <- !app_assoc. cbn [app].
      repeat split; try reflexivity.
      * constructor; [left; now exists e|].
        constructor; [right; now exists e|constructor].
      * discriminate.
      * discriminate.
    + exists [EWebhookSend (run_failure_alert e)].
      cbn [fst snd record_effect effects daily_trades app].
      rewrite <- !app_assoc. cbn [app].
      repeat split; try reflexivity.
      * constructor; [left; now exists e|constructor].
      * discriminate.
      * discriminate.
Qed.

(** One cycle with the market closed and the webhook up. *)
Lemma run_market_closed_witness :
  fst closed_run = Return tt
  /\ effects (snd closed_run) = [EGetClock; EWebhookSend market_closed_embed]
  /\ daily_trades (snd closed_run) = [].
Proof.
  destruct (run_market_closed (calm_env false 10500 10000) TradingBot.init
              eq_refl)
    as ((reports & He & _ & _ & _ & _ & _ & _ & _ & Ht & Hok & _) & _).
  destruct (Hok eq_refl) as [Hr Hnil].
  rewrite Hnil in He.
  split; [exact Hr | split; [exact He | exact Ht]].
Defined.

(** ** The trade list is touched by one primitive only *)

Create HintDb keeps discriminated.

Lemma keeps_ret {A} (a : A) : keeps_trades (ret a).
Proof. intros env w. reflexivity. Qed.

Lemma keeps_raise {A} (e : PyExn) : keeps_trades (@raise A e).
Proof. intros env w. reflexivity. Qed.

Lemma keeps_lift {A} (r : Result A) : keeps_trades (lift r).
Proof. intros env w. reflexivity. Qed.

Lemma keeps_bind {A B} (m : M A) (k : A -> M B) :
  keeps_trades m -> (forall a, keeps_trades (k a)) -> keeps_trades (bind m k).
Proof.
  intros Hm Hk env w. unfold bind. specialize (Hm env w).
  destruct (m env w) as [[a|e] w1]; cbn [snd] in *.
  - rewrite Hk. exact Hm.
  - exact Hm.
Qed.

Lemma keeps_try_except {A} (body : M A) (handler : PyExn -> M A) :
  keeps_trades body -> (forall e, keeps_trades (handler e)) ->
  keeps_trades (try_except body handler).
Proof.
  intros Hb Hh env w. unfold try_except. specialize (Hb env w).
  destruct (body env w) as [[a|e] w1]; cbn [snd] in *.
  - exact Hb.
  - rewrite Hh. exact Hb.
Qed.

Lemma keeps_if {A} (b : bool) (m1 m2 : M A) :
  keeps_trades m1 -> keeps_trades m2 -> keeps_trades (if b then m1 else m2).
Proof. destruct b; trivial. Qed.

Lemma keeps_api_get_clock : keeps_trades api_get_clock.
Proof. intros env w. reflexivity. Qed.

Lemma keeps_api_get_account : keeps_trades api_get_account.
Proof. intros env w. reflexivity. Qed.

Lemma keeps_api_submit_order (o : Order) : keeps_trades (api_submit_order o).
Proof. intros env w. reflexivity. Qed.

Lemma keeps_webhook_send (m : Embed) : keeps_trades (webhook_send m).
Proof. intros env w. reflexivity. Qed.

Lemma keeps_logging (level : LogLevel) (msg : list Frag) :
  keeps_trades (logging level msg).
Proof. intros env w. reflexivity. Qed.

Lemma keeps_get_daily_trades : keeps_trades get_daily_trades.
Proof. intros env w. reflexivity. Qed.

#[local] Hint Resolve keeps_ret keeps_raise keeps_lift keeps_bind
  keeps_try_except keeps_if keeps_api_get_clock keeps_api_get_account
  keeps_api_submit_order keeps_webhook_send keeps_logging
  keeps_get_daily_trades : keeps.

Ltac keeps :=
  unfold DiscordNotifier.send_trade_alert, DiscordNotifier.send_daily_summary,
    DiscordNotifier.send_error_alert, DiscordNotifier.send_message;
  cbv zeta;
  repeat (intros; first
    [ apply keeps_bind | apply keeps_try_except | apply keeps_if
    | solve [auto with keeps] ]).

Lemma keeps_check_market_hours : keeps_trades TradingBot.check_market_hours.
Proof. unfold TradingBot.check_market_hours. keeps. Qed.

Lemma keeps_send_daily_summary : keeps_trades TradingBot.send_daily_summary.
Proof. unfold TradingBot.send_daily_summary. keeps. Qed.

Lemma keeps_run : keeps_trades TradingBot.run.
Proof.
  unfold TradingBot.run. keeps.
Qed.

(** [execute_trade] appends the record it returns, and nothing when it
    raises. *)
Lemma execute_trade_trades (env : Env) (w : World)
    (sym : string) (qty : Z) (side : string) (px : float) :
  let out := TradingBot.execute_trade sym qty side px env w in
  match fst out with
  | Return t => daily_trades (snd out) = daily_trades w ++ [t]
  | Raise _ => daily_trades (snd out) = daily_trades w
  end.
Proof.
  cbv zeta. rewrite execute_trade_cases. cbv zeta. unfold after_failure.
  destruct (order_of env (effects w) _) as [[]|e].
  - destruct (Py.float_mul_int px qty) as [tot|e].
    + cbn [record_effect effects daily_trades].
      destruct (webhook_of env _ (DiscordNotifier.trade_alert_embed _))
        as [[]|e]; cbn [fst snd daily_trades]; [reflexivity|].
      destruct (webhook_of env _ (failure_alert e)); reflexivity.
    + cbn [fst snd record_effect daily_trades].
      destruct (webhook_of env _ (failure_alert e)); reflexivity.
  - cbn [fst snd record_effect daily_trades].
    destruct (webhook_of env _ (failure_alert e)); reflexivity.
Qed.

Lemma perform_appends (c : BotCall) (env : Env) (w : World) :
  appended_at_most_one (daily_trades w) (daily_trades (perform c env w)).
Proof.
  destruct c as [|sym qty side px| |]; cbn [perform].
  - left. apply keeps_check_market_hours.
  - pose proof (execute_trade_trades env w sym qty side px) as H.
    cbv zeta in H.
    destruct (fst (TradingBot.execute_trade sym qty side px env w)) as [t|e].
    + right. now exists t.
    + now left.
  - left. apply keeps_send_daily_summary.
  - left. apply keeps_run.
Qed.

Lemma perform_all_extends (cs : list BotCall) (env : Env) :
  forall w,
  exists added,
    daily_trades (perform_all cs env w) = daily_trades w ++ added
    /\ (List.length added <= List.length cs)%nat.
Proof.
  induction cs as [|c cs IH]; intros w; cbn [perform_all].
  - exists []. rewrite app_nil_r. split; [reflexivity|apply Nat.le_refl].
  - destruct (IH (perform c env w)) as (added & Ha & Hl).
    destruct (perform_appends c env w) as [Hc|[t Hc]]; rewrite Hc in Ha.
    + exists added. split; [exact Ha|]. cbn [List.length]. lia.
    + exists (t :: added). rewrite <- app_assoc in Ha.
      split; [exact Ha|]. cbn [List.length]. lia.
Qed.

(** ** C8: the trade list only grows, one record at a time *)

(** C8.  A fresh bot has an empty trade list.  [check_market_hours],
    [send_daily_summary] and [run] leave the list as it is; [execute_trade]
    leaves it as it is when it raises and adds the returned record at its end
    when it returns.  So each call keeps the list or appends one record, and
    after any sequence of calls the earlier list is still there, unchanged,
    as a prefix, followed by at most one record per call. *)
Theorem trade_list_append_only :
  daily_trades TradingBot.init = []
  /\ keeps_trades TradingBot.check_market_hours
  /\ keeps_trades TradingBot.send_daily_summary
  /\ keeps_trades TradingBot.run
  /\ (forall env w sym qty side px,
        let out := TradingBot.execute_trade sym qty side px env w in
        match fst out with
        | Return t => daily_trades (snd out) = daily_trades w ++ [t]
        | Raise _ => daily_trades (snd out) = daily_trades w
        end)
  /\ (forall c env w,
        appended_at_most_one (daily_trades w) (daily_trades (perform c env w)))
  /\ (forall cs env w,
        exists added,
          daily_trades (perform_all cs env w) = daily_trades w ++ added
          /\ (List.length added <= List.length cs)%nat).
Proof.
  split; [reflexivity|].
  split; [exact keeps_check_market_hours|].
  split; [exact keeps_send_daily_summary|].
  split; [exact keeps_run|].
  split; [intros; apply execute_trade_trades|].
  split; [exact perform_appends | exact perform_all_extends].
Qed.

(** * Concrete runs *)

(** The market is closed and the webhook is down: the notice is attempted,
    the catch-all's alert is attempted, and the webhook's exception leaves
    [run]. *)
Example run_closed_webhook_down :
  TradingBot.run (webhook_down_env false 10500 10000) TradingBot.init
  = (Raise outage,
     {| daily_trades := [];
        effects :=
          [EGetClock; EWebhookSend market_closed_embed;
           EWebhookSend (run_failure_alert outage)] |}).
Proof. vm_compute. reflexivity. Qed.

(** The market is open and the last equity is zero: [run] reports the
    division by zero and raises it. *)
Example run_zero_last_equity :
  let e := ZeroDivisionError "float division by zero" in
  TradingBot.run (calm_env true 10500 0) TradingBot.init
  = (Raise e,
     {| daily_trades := [];
        effects :=
          [EGetClock; EGetAccount;
           EWebhookSend
             {| description :=
                  TradingBot.session_started_content
                    {| equity := 10500; last_equity := 0 |};
                color := DiscordNotifier.GREEN |};
           EGetAccount;
           EWebhookSend (run_failure_alert e);
           run_failure_log e] |}).
Proof. vm_compute. reflexivity. Qed.

(** The total is a binary64 product: it is rounded like any other.  Here
    the float of 0.1 times 3 is the float that prints 0.30000000000000004. *)
Example total_is_a_float_product :
  Py.float_mul_int 0x1.999999999999ap-4 3 = Return 0x1.3333333333334p-2%float
  /\ Py.float_mul_int 50 10 = Return 500%float.
Proof. split; vm_compute; reflexivity. Qed.

(** A quantity beyond the range of floats makes the product raise, after
    the order was placed. *)
Example execute_trade_huge_quantity :
  let out :=
    TradingBot.execute_trade "AAPL" (2 ^ 1024) "buy" 50
      (calm_env true 10500 10000) TradingBot.init in
  fst out = Raise (OverflowError "int too large to convert to float")
  /\ daily_trades (snd out) = [].
Proof. split; vm_compute; reflexivity. Qed.

(** The plain variant, market closed: one clock query, one log line. *)
Example plain_run_closed_calm :
  Plain.run (calm_env false 10500 10000) TradingBot.init
  = (Return tt,
     {| daily_trades := [];
        effects := [EGetClock; ELog INFO [Lit "Market is closed"]] |}).
Proof. apply plain_run_closed. reflexivity. Qed.

(** * Further properties *)

(** ** What a piece of bot code emits *)

Lemma emits_ret {A} l (P : Effect -> Prop) (a : A) : emits l P (ret a).
Proof.
  intros env w Hw. split; [exact Hw|]. exists []. cbn [ret snd].
  rewrite app_nil_r. split; [reflexivity|constructor].
Qed.

Lemma emits_raise {A} l (P : Effect -> Prop) (e : PyExn) :
  emits l P (@raise A e).
Proof.
  intros env w Hw. split; [exact Hw|]. exists []. cbn [raise snd].
  rewrite app_nil_r. split; [reflexivity|constructor].
Qed.

Lemma emits_bind {A B} l (P : Effect -> Prop) (m : M A) (k : A -> M B) :
  emits l P m -> (forall a, emits l P (k a)) -> emits l P (bind m k).
Proof.
  intros Hm Hk env w Hw. unfold bind.
  destruct (Hm env w Hw) as (Hl1 & n1 & E1 & F1).
  destruct (m env w) as [[a|e] w1]; cbn [snd] in *.
  - destruct (Hk a env w1 Hl1) as (Hl2 & n2 & E2 & F2).
    split; [exact Hl2|]. exists (n1 ++ n2).
    rewrite E2, E1, app_assoc. split; [reflexivity|].
    apply Forall_app. split; assumption.
  - split; [exact Hl1|]. exists n1. split; assumption.
Qed.

Lemma emits_try_except {A} l (P : Effect -> Prop)
    (body : M A) (handler : PyExn -> M A) :
  emits l P body -> (forall e, emits l P (handler e)) ->
  emits l P (try_except body handler).
Proof.
  intros Hb Hh env w Hw. unfold try_except.
  destruct (Hb env w Hw) as (Hl1 & n1 & E1 & F1).
  destruct (body env w) as [[a|e] w1]; cbn [snd] in *.
  - split; [exact Hl1|]. exists n1. split; assumption.
  - destruct (Hh e env w1 Hl1) as (Hl2 & n2 & E2 & F2).
    split; [exact Hl2|]. exists (n1 ++ n2).
    rewrite E2, E1, app_assoc. split; [reflexivity|].
    apply Forall_app. split; assumption.
Qed.

Lemma emits_if {A} l (P : Effect -> Prop) (b : bool) (m1 m2 : M A) :
  emits l P m1 -> emits l P m2 -> emits l P (if b then m1 else m2).
Proof. destruct b; trivial. Qed.

Lemma emits_weaken {A} l (P Q : Effect -> Prop) (m : M A) :
  (forall ev, P ev -> Q ev) -> emits l P m -> emits l Q m.
Proof.
  intros HPQ Hm env w Hw. destruct (Hm env w Hw) as (Hl & n & E & F).
  split; [exact Hl|]. exists n. split; [exact E|].
  eapply Forall_impl; [exact HPQ | exact F].
Qed.

(** A primitive that records one effect and keeps the ledger. *)
Lemma emits_one {A} l (P : Effect -> Prop) (m : M A) (ev : Effect) :
  (forall env w, snd (m env w) = record_effect ev w) ->
  P ev -> emits l P m.
Proof.
  intros Hm HP env w Hw. rewrite Hm. split; [exact Hw|].
  exists [ev]. split; [reflexivity|]. constructor; [exact HP|constructor].
Qed.

Lemma emits_api_get_clock l (P : Effect -> Prop) :
  P EGetClock -> emits l P api_get_clock.
Proof. apply emits_one. reflexivity. Qed.

Lemma emits_api_get_account l (P : Effect -> Prop) :
  P EGetAccount -> emits l P api_get_account.
Proof. apply emits_one. reflexivity. Qed.

Lemma emits_webhook_send l (P : Effect -> Prop) (m : Embed) :
  P (EWebhookSend m) -> emits l P (webhook_send m).
Proof. apply emits_one. reflexivity. Qed.

Lemma emits_logging l (P : Effect -> Prop) level msg :
  P (ELog level msg) -> emits l P (logging level msg).
Proof. apply emits_one. reflexivity. Qed.

(** [send_daily_summary] fetches the account, then sends at most the
    summary of the ledger it was started on. *)
Lemma send_daily_summary_effects (env : Env) (w : World) :
  exists new,
    effects (snd (TradingBot.send_daily_summary env w))
    = effects w ++ EGetAccount :: new
    /\ (new = []
        \/ exists account,
             account_of env (effects w) = Return account
             /\ PrimFloat.eqb (last_equity account) 0 = false
             /\ new = [EWebhookSend
                         (DiscordNotifier.daily_summary_embed
                            (summary_of account (daily_trades w)))]).
Proof.
  destruct (account_of env (effects w)) as [account|e] eqn:Ha.
  - rewrite (send_daily_summary_cases env w account Ha).
    destruct (PrimFloat.eqb (last_equity account) 0) eqn:Hle.
    + exists []. split; [reflexivity|now left].
    + eexists. cbn [snd record_effect effects]. rewrite app_snoc2.
      split; [reflexivity|]. right. exists account.
      split; [reflexivity|]. split; [exact Hle|reflexivity].
  - rewrite (send_daily_summary_fetch_failure env w e Ha).
    exists []. split; [reflexivity|now left].
Qed.

Lemma emits_send_daily_summary l :
  emits l (fun ev => cycle_step ev /\ reports_ledger l ev)
    TradingBot.send_daily_summary.
Proof.
  intros env w Hw. split; [rewrite keeps_send_daily_summary; exact Hw|].
  destruct (send_daily_summary_effects env w) as (new & E & Hnew).
  exists (EGetAccount :: new). split; [exact E|].
  constructor.
  - split; [repeat split|]. intros H. discriminate H.
  - destruct Hnew as [->|(account & _ & _ & ->)]; [constructor|].
    constructor; [|constructor]. split; [repeat split|].
    intros _. exists account. rewrite Hw. reflexivity.
Qed.

(** ** One cycle of the notifying bot *)

Ltac step_ok :=
  unfold cycle_step, no_trading, reports_ledger;
  repeat split; try reflexivity; intros H; discriminate H.

Lemma run_body_emits l :
  emits l (fun ev => cycle_step ev /\ reports_ledger l ev) run_body.
Proof.
  unfold run_body, TradingBot.check_market_hours,
    DiscordNotifier.send_message.
  apply emits_bind.
  - apply emits_bind; [apply emits_api_get_clock; step_ok|].
    intros clock. apply emits_ret.
  - intros market_open. apply emits_if.
    + apply emits_webhook_send. step_ok.
    + apply emits_bind; [apply emits_api_get_account; step_ok|].
      intros account. apply emits_bind.
      * apply emits_webhook_send. step_ok.
      * intros _. apply emits_send_daily_summary.
Qed.

(** [run] is its body under the catch-all. *)
Lemma run_try (env : Env) (w : World) :
  TradingBot.run env w =
  match run_body env w with
  | (Return a, w1) => (Return a, w1)
  | (Raise e, w1) => after_run_failure env e w1
  end.
Proof.
  change (TradingBot.run env w) with
    (try_except run_body
       (fun e =>
          DiscordNotifier.send_error_alert
            ("Error in trading bot: " ++ str e)%string ;;
          logging ERROR [Lit "Error in trading bot: "; FmtStr (str e)] ;;
          raise e) env w).
  unfold try_except. destruct (run_body env w) as [[a|e] w1]; [reflexivity|].
  unfold after_run_failure, run_failure_alert, run_failure_log.
  unfold DiscordNotifier.send_error_alert, DiscordNotifier.send_message,
    bind, webhook_send, logging, raise.
  cbn beta iota zeta.
  destruct (webhook_of env (effects w1) _) as [[]|e']; reflexivity.
Qed.

Lemma after_run_failure_effects (env : Env) (e : PyExn) (w1 : World) :
  daily_trades (snd (after_run_failure env e w1)) = daily_trades w1
  /\ exists reports,
       effects (snd (after_run_failure env e w1)) = effects w1 ++ reports
       /\ ((reports = [EWebhookSend (run_failure_alert e); run_failure_log e]
            /\ fst (after_run_failure env e w1) = Raise e
            /\ webhook_of env (effects w1) (run_failure_alert e) = Return tt)
           \/ (exists e',
                 reports = [EWebhookSend (run_failure_alert e)]
                 /\ fst (after_run_failure env e w1) = Raise e'
                 /\ webhook_of env (effects w1) (run_failure_alert e)
                    = Raise e')).
Proof.
  unfold after_run_failure.
  destruct (webhook_of env (effects w1) (run_failure_alert e)) as [[]|e'].
  - split; [reflexivity|]. eexists. cbn [snd record_effect effects].
    rewrite app_snoc2. split; [reflexivity|]. left. repeat split.
  - split; [reflexivity|]. eexists. cbn [snd record_effect effects].
    split; [reflexivity|]. right. exists e'. repeat split.
Qed.

Lemma run_emits l :
  emits l (fun ev => no_trading ev /\ reports_ledger l ev) TradingBot.run.
Proof.
  change TradingBot.run with
    (try_except run_body
       (fun e =>
          DiscordNotifier.send_error_alert
            ("Error in trading bot: " ++ str e)%string ;;
          logging ERROR [Lit "Error in trading bot: "; FmtStr (str e)] ;;
          raise e)).
  apply emits_try_except.
  - eapply emits_weaken; [|apply run_body_emits].
    intros ev [[H _] H']. split; assumption.
  - intros e. unfold DiscordNotifier.send_error_alert,
      DiscordNotifier.send_message.
    apply emits_bind; [apply emits_webhook_send; step_ok|].
    intros _. apply emits_bind; [apply emits_logging; step_ok|].
    intros _. apply emits_raise.
Qed.

(** X1.  A cycle never trades: whatever the two services answer, [run] places no
    order, appends no record and sends no trade alert; the ledger is the one
    it started with, and a summary, when one is sent, is the summary of that
    ledger. *)
Theorem run_never_trades (env : Env) (w : World) :
  let out := TradingBot.run env w in
  daily_trades (snd out) = daily_trades w
  /\ exists new,
       effects (snd out) = effects w ++ new
       /\ Forall no_trading new
       /\ Forall (reports_ledger (daily_trades w)) new.
Proof.
  cbv zeta.
  destruct (run_emits (daily_trades w) env w eq_refl) as (Hl & new & E & F).
  split; [exact Hl|]. exists new. split; [exact E|].
  split; (eapply Forall_impl; [|exact F]); intros ev [H1 H2]; assumption.
Qed.

(** X2.  How a failing cycle reports.  The effects of [run] are the steps of its
    body, none of them an error alert or an error line, followed by the
    reports of the catch-all.  A cycle that returns made no report.  A cycle
    that raises attempted exactly one error alert, for the exception [e0] of
    its body: when the webhook took the alert, the error line follows and
    [e0] is raised; when the webhook refused it, no error line is written and
    the webhook's exception is raised instead of [e0]. *)
Theorem run_failure_reporting (env : Env) (w : World) :
  let out := TradingBot.run env w in
  exists body reports,
    effects (snd out) = effects w ++ body ++ reports
    /\ Forall cycle_step body
    /\ match fst out with
       | Return _ => reports = []
       | Raise e =>
           exists e0,
             let alert := run_failure_alert e0 in
             (reports = [EWebhookSend alert; run_failure_log e0]
              /\ e = e0
              /\ webhook_of env (effects w ++ body) alert = Return tt)
             \/ (reports = [EWebhookSend alert]
                 /\ webhook_of env (effects w ++ body) alert = Raise e)
       end.
Proof.
  cbv zeta. rewrite run_try.
  destruct (run_body_emits (daily_trades w) env w eq_refl)
    as (_ & body & Eb & Fb).
  assert (Fb1 : Forall cycle_step body)
    by (eapply Forall_impl; [|exact Fb]; intros ev [H _]; exact H).
  destruct (run_body env w) as [[a|e0] w1]; cbn [snd] in *.
  - exists body, []. rewrite app_nil_r. repeat split; assumption.
  - destruct (after_run_failure_effects env e0 w1)
      as (_ & reports & Er & Hr).
    exists body, reports. rewrite Er, Eb, app_assoc.
    split; [reflexivity|]. split; [exact Fb1|].
    rewrite Eb in Hr.
    destruct Hr as [(-> & Hf & Hw)|(e' & -> & Hf & Hw)]; rewrite Hf;
      exists e0; [left|right]; repeat split; assumption.
Qed.

(** X4.  The program of the notifying script, in any environment: the ledger
    stays empty, no order is placed, and a summary, when one goes out,
    reports zero trades and the integer win rate 0. *)
Theorem main_reports_no_trades (env : Env) :
  daily_trades (snd (main env)) = []
  /\ Forall no_trading (effects (snd (main env)))
  /\ forall m,
       In (EWebhookSend m) (effects (snd (main env))) ->
       is_summary_notice (EWebhookSend m) = true ->
       exists s,
         m = DiscordNotifier.daily_summary_embed s
         /\ total_trades s = 0
         /\ win_rate s = Py.Int 0.
Proof.
  unfold main.
  destruct (run_emits [] env TradingBot.init eq_refl) as (Hl & new & E & F).
  split; [exact Hl|]. rewrite E. cbn [TradingBot.init effects app].
  split; [eapply Forall_impl; [|exact F]; intros ev [H _]; exact H|].
  intros m Hin Hs. rewrite Forall_forall in F.
  destruct (F _ Hin) as [_ Hrep]. destruct (Hrep Hs) as (account & Hm).
  injection Hm as ->. eexists. split; [reflexivity|]. split; reflexivity.
Qed.

(** X3.  An open market and no failure: [run] asks the clock, fetches the
    account, announces the session with the equity of that first snapshot,
    fetches the account again, and sends the summary computed from the
    second snapshot and the ledger.  Nothing is cached between the two
    fetches: the two messages may show different balances. *)
Theorem run_open_market (env : Env) (w : World) (a1 a2 : Account) :
  let session := EWebhookSend (session_started_embed a1) in
  let summary :=
    EWebhookSend
      (DiscordNotifier.daily_summary_embed (summary_of a2 (daily_trades w))) in
  clock_of env (effects w) = Return {| is_open := true |} ->
  account_of env (effects w ++ [EGetClock]) = Return a1 ->
  webhook_of env (effects w ++ [EGetClock; EGetAccount])
    (session_started_embed a1) = Return tt ->
  account_of env (effects w ++ [EGetClock; EGetAccount; session])
  = Return a2 ->
  PrimFloat.eqb (last_equity a2) 0 = false ->
  webhook_of env
    (effects w ++ [EGetClock; EGetAccount; session; EGetAccount])
    (DiscordNotifier.daily_summary_embed (summary_of a2 (daily_trades w)))
  = Return tt ->
  TradingBot.run env w
  = (Return tt,
     {| daily_trades := daily_trades w;
        effects :=
          effects w ++
          [EGetClock; EGetAccount; session; EGetAccount; summary] |}).
Proof.
  intros session summary Hc Ha1 Hs Ha2 Hle Hsum. subst session summary.
  rewrite run_try. unfold run_body, TradingBot.check_market_hours.
  unfold bind at 1. unfold bind at 1. unfold api_get_clock at 1.
  rewrite Hc. unfold ret. cbn [is_open negb].
  unfold bind at 1. unfold api_get_account at 1.
  cbn [record_effect effects]. rewrite Ha1.
  unfold bind at 1. unfold DiscordNotifier.send_message, webhook_send.
  cbn [record_effect effects daily_trades].
  rewrite app_snoc2. fold (session_started_embed a1). rewrite Hs.
  rewrite <- app_snoc3 in Ha2.
  match goal with
  | |- context [TradingBot.send_daily_summary env ?w0] =>
      rewrite (send_daily_summary_cases env w0 a2 Ha2)
  end.
  rewrite Hle. cbn [record_effect effects daily_trades].
  rewrite <- !app_assoc. cbn [app]. rewrite Hsum.
  unfold record_effect. cbn [effects daily_trades].
  rewrite <- !app_assoc. reflexivity.
Qed.

(** The calm environment, whose account never changes. *)
Lemma run_open_market_witness :
  main calm
  = (Return tt,
     {| daily_trades := [];
        effects :=
          [EGetClock; EGetAccount;
           EWebhookSend (session_started_embed sample_account);
           EGetAccount;
           EWebhookSend
             (DiscordNotifier.daily_summary_embed
                (summary_of sample_account []))] |}).
Proof.
  exact (run_open_market calm TradingBot.init sample_account sample_account
           eq_refl eq_refl eq_refl eq_refl eq_refl eq_refl).
Defined.

(** ** One cycle of the plain bot *)

Lemma plain_run_cases (env : Env) (w : World) :
  Plain.run env w =
  let w1 := record_effect EGetClock w in
  let failed e w' :=
    (Raise e,
     record_effect (ELog ERROR [Lit "Error in trading bot: "; FmtStr (str e)])
       w') in
  match clock_of env (effects w) with
  | Raise e => failed e w1
  | Return clock =>
      if is_open clock
      then
        let w2 := record_effect EGetAccount w1 in
        match account_of env (effects w1) with
        | Raise e => failed e w2
        | Return account =>
            (Return tt,
             record_effect
               (ELog INFO [Lit "Current balance: $";
                           FmtFloat (equity account)]) w2)
        end
      else (Return tt, record_effect (ELog INFO [Lit "Market is closed"]) w1)
  end.
Proof.
  unfold_bot. step.
  destruct (clock_of env (effects w)) as [[[|]]|e]; step;
    cbn [is_open negb]; step; try reflexivity.
  destruct (account_of env _) as [account|e]; reflexivity.
Qed.

(** X5.  Every cycle of the plain bot ends with exactly one log line, after one
    or two brokerage calls and nothing else: no webhook call, no order, no
    change to the ledger.  The line is an INFO line when [run] returns.
    When [run] raises, the exception is the one the clock or the account
    call raised, unchanged, and the line is the ERROR line quoting it. *)
Theorem plain_run_one_log_line (env : Env) (w : World) :
  let out := Plain.run env w in
  exists calls line,
    effects (snd out) = effects w ++ calls ++ [line]
    /\ (calls = [EGetClock] \/ calls = [EGetClock; EGetAccount])
    /\ is_log line = true
    /\ daily_trades (snd out) = daily_trades w
    /\ match fst out with
       | Return _ => exists msg, line = ELog INFO msg
       | Raise e =>
           line = ELog ERROR [Lit "Error in trading bot: "; FmtStr (str e)]
           /\ (clock_of env (effects w) = Raise e
               \/ account_of env (effects w ++ [EGetClock]) = Raise e)
       end.
Proof.
  cbv zeta. rewrite plain_run_cases. cbv zeta.
  destruct (clock_of env (effects w)) as [[[|]]|e] eqn:Hc; cbn [is_open].
  - cbn [record_effect effects].
    destruct (account_of env (effects w ++ [EGetClock])) as [account|e]
      eqn:Ha; cbn [fst snd record_effect effects daily_trades].
    + do 2 eexists. rewrite app_snoc3.
      split; [change [EGetClock; EGetAccount; ?x]
                with ([EGetClock; EGetAccount] ++ [x]); reflexivity|].
      split; [now right|]. repeat split. eexists. reflexivity.
    + do 2 eexists. rewrite app_snoc3.
      split; [change [EGetClock; EGetAccount; ?x]
                with ([EGetClock; EGetAccount] ++ [x]); reflexivity|].
      split; [now right|]. repeat split. now right.
  - cbn [fst snd record_effect effects daily_trades].
    do 2 eexists. rewrite app_snoc2.
    split; [change [EGetClock; ?x] with ([EGetClock] ++ [x]); reflexivity|].
    split; [now left|]. repeat split. eexists. reflexivity.
  - cbn [fst snd record_effect effects daily_trades].
    do 2 eexists. rewrite app_snoc2.
    split; [change [EGetClock; ?x] with ([EGetClock] ++ [x]); reflexivity|].
    split; [now left|]. repeat split. now left.
Qed.

(** ** Quantities and the float product *)

(** Aligning a mantissa does not change its magnitude and never raises the
    exponent. *)
Lemma shl_align_spec (m : positive) (e' : Z) :
  let '(mz, ez) := shl_align m 0 e' in
  ez <= 0 /\ Zpos (digits2_pos mz) + ez = Zpos (digits2_pos m).
Proof.
  unfold shl_align. destruct (e' - 0) as [|d|d] eqn:E.
  - lia.
  - lia.
  - rewrite digits2_pos_iter_xO. lia.
Qed.

(** Ints below [2 ^ 1023] in absolute value convert to a float. *)
Lemma float_of_int_finite (n : Z) :
  Z.abs n < 2 ^ 1023 ->
  Py.float_of_int n = Return (SF2Prim (binary_normalize prec emax n 0 false)).
Proof.
  intros Hn. unfold Py.float_of_int.
  assert (Hfin : forall s, binary_normalize prec emax n 0 false
                           <> S754_infinity s).
  { intros s. destruct n as [|p|p]; cbn [binary_normalize];
      [discriminate| |]; unfold binary_round;
      pose proof (shl_align_spec p
                    (fexp prec emax (Z.pos (digits2_pos p) + 0))) as Hs;
      destruct (shl_align p 0 _) as [mz ez]; destruct Hs as [He Hd];
      assert (Zdigits2 (Zpos p) <= 1023)
        by (apply Zdigits2_le; [cbn [Z.abs] in Hn; lia|lia]);
      apply binary_round_aux_finite; cbn [Zdigits2] in *;
      unfold emax, prec; lia. }
  destruct (binary_normalize prec emax n 0 false) as [s|s| |s m e];
    try reflexivity.
  exfalso. exact (Hfin s eq_refl).
Qed.

(** Dropping all but the 53 leading digits keeps a positive mantissa
    positive. *)
Lemma leading_digits_pos (m : Z) :
  0 < m -> 0 < m / 2 ^ Z.max 0 (Zdigits2 m - 53).
Proof.
  intros Hm. pose proof (Zdigits2_pow_le m Hm) as Hlo.
  set (d := Zdigits2 m) in *.
  destruct (Z.max_spec 0 (d - 53)) as [[H ->]|[H ->]].
  - apply Z.div_str_pos. split; [apply Z.pow_pos_nonneg; lia|].
    eapply Z.le_trans; [|exact Hlo]. apply Z.pow_le_mono_r; lia.
  - cbn. rewrite Z.div_1_r. exact Hm.
Qed.

(** Rounding a value of [2 ^ emax] or more gives an infinity. *)
Lemma binary_round_aux_overflow (sx : bool) (m e : Z) (l : location) :
  0 < m -> emax + 1 <= Zdigits2 m + e ->
  binary_round_aux prec emax sx m e l = S754_infinity sx.
Proof.
  intros Hm Hd. unfold binary_round_aux.
  pose proof (shr_fexp_spec m e l ltac:(lia)) as H1.
  destruct (shr_fexp prec emax m e l) as [mrs1 e1].
  cbv zeta in H1. destruct H1 as [He1 Hm1].
  assert (Hf1 : fexp prec emax (Zdigits2 m + e) = Zdigits2 m + e - 53)
    by (unfold fexp, emin, emax, prec in *; lia).
  rewrite Hf1 in He1, Hm1.
  replace (Zdigits2 m + e - 53 - e) with (Zdigits2 m - 53) in He1, Hm1
    by lia.
  pose proof (leading_digits_pos m Hm) as Hpos1. rewrite <- Hm1 in Hpos1.
  pose proof (round_nearest_even_bounds (shr_m mrs1) (loc_of_shr_record mrs1))
    as Hr.
  set (m2 := round_nearest_even (shr_m mrs1) (loc_of_shr_record mrs1)) in *.
  assert (Hm2 : 0 < m2) by lia.
  assert (He1' : emax - prec + 1 <= e1) by (unfold emax, prec in *; lia).
  pose proof (shr_fexp_spec m2 e1 loc_Exact ltac:(lia)) as H2.
  destruct (shr_fexp prec emax m2 e1 loc_Exact) as [mrs2 e2].
  cbv zeta in H2. destruct H2 as [He2 Hm2'].
  pose proof (Zdigits2_ge m2 1 ltac:(cbn; lia) Hm2) as Hd2.
  assert (Hf2 : fexp prec emax (Zdigits2 m2 + e1) = Zdigits2 m2 + e1 - 53)
    by (unfold fexp, emin, emax, prec in *; lia).
  rewrite Hf2 in He2, Hm2'.
  replace (Zdigits2 m2 + e1 - 53 - e1) with (Zdigits2 m2 - 53) in He2, Hm2'
    by lia.
  pose proof (leading_digits_pos m2 Hm2) as Hpos2. rewrite <- Hm2' in Hpos2.
  destruct (shr_m mrs2) as [|p|p]; try lia.
  replace (Z.leb e2 (emax - prec)) with false; [reflexivity|].
  symmetry. apply Z.leb_gt. lia.
Qed.

(** Ints of [2 ^ 1024] or more in absolute value do not convert. *)
Lemma float_of_int_overflow (n : Z) :
  2 ^ 1024 <= Z.abs n ->
  Py.float_of_int n
  = Raise (OverflowError "int too large to convert to float").
Proof.
  intros Hn. unfold Py.float_of_int.
  assert (Hinf : exists s,
            binary_normalize prec emax n 0 false = S754_infinity s).
  { assert (Hpos : 0 < 2 ^ 1024) by (apply Z.pow_pos_nonneg; lia).
    destruct n as [|p|p]; cbn [Z.abs] in Hn; [lia| |];
      cbn [binary_normalize]; unfold binary_round;
      assert (HD : 1025 <= Zdigits2 (Zpos p))
        by (apply Zdigits2_ge; [exact Hn|lia]);
      cbn [Zdigits2] in HD; unfold shl_align;
      (destruct (fexp prec emax (Z.pos (digits2_pos p) + 0) - 0) as [|d|d]
         eqn:E;
       [ unfold fexp, emin, emax, prec in E; lia
       | eexists; apply binary_round_aux_overflow;
         [lia | cbn [Zdigits2]; unfold emax; lia]
       | unfold fexp, emin, emax, prec in E; lia ]). }
  destruct Hinf as [s ->]. reflexivity.
Qed.

(** ** More on execute_trade *)

(** X6.  A quantity below [2 ^ 1023] in absolute value never makes the product
    raise.  For such a quantity, [execute_trade] returns exactly when the
    brokerage accepts the order and the webhook takes the trade alert,
    whatever else the environment does; the record it returns is then the
    one built from its arguments, and it is appended. *)
Theorem execute_trade_recorded_iff (env : Env) (w : World)
    (sym : string) (qty : Z) (side : string) (px : float) :
  Z.abs qty < 2 ^ 1023 ->
  exists tot,
    Py.float_mul_int px qty = Return tot
    /\ let t := record_of sym qty side px tot in
       let order := TradingBot.market_order sym qty side in
       let alert := DiscordNotifier.trade_alert_embed t in
       (order_of env (effects w) order = Return tt
        /\ webhook_of env (effects w ++ [ESubmitOrder order]) alert = Return tt
        <-> exists w',
              TradingBot.execute_trade sym qty side px env w = (Return t, w'))
       /\ forall t' w',
            TradingBot.execute_trade sym qty side px env w = (Return t', w') ->
            t' = t /\ daily_trades w' = daily_trades w ++ [t].
Proof.
  intros Hq. pose proof (float_of_int_finite qty Hq) as Hf.
  eexists. split.
  { unfold Py.float_mul_int. rewrite Hf. reflexivity. }
  cbv zeta. split; [split|].
  - intros [Ho Hw]. rewrite execute_trade_cases. cbv zeta.
    rewrite Ho. unfold Py.float_mul_int. rewrite Hf.
    cbn [record_effect effects]. unfold record_of in Hw. rewrite Hw.
    eexists. reflexivity.
  - intros [w' H].
    destruct (execute_trade_success _ _ _ _ _ _ _ _ H)
      as (tot & _ & _ & Ho & Hw & _).
    split; assumption.
  - intros t' w' H.
    destruct (execute_trade_success _ _ _ _ _ _ _ _ H)
      as (tot & Hm & -> & _ & _ & ->).
    unfold Py.float_mul_int in Hm. rewrite Hf in Hm. injection Hm as <-.
    split; reflexivity.
Qed.

(** The sample trade: accepted, announced, recorded. *)
Lemma execute_trade_recorded_iff_witness :
  exists w', sample_buy = (Return sample_trade, w').
Proof.
  destruct (execute_trade_recorded_iff calm TradingBot.init
              "AAPL" 10 "buy" 50 ltac:(vm_compute; reflexivity))
    as (tot & Hm & Hiff & _).
  rewrite float_mul_int_50_10 in Hm. injection Hm as <-.
  apply Hiff. split; reflexivity.
Defined.

(** X7.  A quantity of [2 ^ 1024] or more in absolute value cannot be turned
    into a float: [execute_trade] then always raises and never records, and when
    the brokerage accepted the order, the order is placed all the same and
    the only report is the error alert for the [OverflowError]. *)
Theorem execute_trade_overflow (env : Env) (w : World)
    (sym : string) (qty : Z) (side : string) (px : float) :
  2 ^ 1024 <= Z.abs qty ->
  let order := TradingBot.market_order sym qty side in
  let e := OverflowError "int too large to convert to float" in
  let out := TradingBot.execute_trade sym qty side px env w in
  is_raise (fst out) = true
  /\ daily_trades (snd out) = daily_trades w
  /\ (order_of env (effects w) order = Return tt ->
      effects (snd out)
      = effects w ++ [ESubmitOrder order; EWebhookSend (failure_alert e)]
      /\ (webhook_of env (effects w ++ [ESubmitOrder order])
            (failure_alert e) = Return tt ->
          fst out = Raise e)).
Proof.
  intros Hq order e out. subst out order e.
  rewrite execute_trade_cases. cbv zeta. unfold Py.float_mul_int.
  rewrite (float_of_int_overflow qty Hq). unfold after_failure.
  destruct (order_of env (effects w) _) as [[]|e0];
    cbn [fst snd record_effect effects daily_trades].
  - split; [destruct (webhook_of env _ _); reflexivity|].
    split; [reflexivity|]. intros _. rewrite app_snoc2.
    split; [reflexivity|]. intros ->. reflexivity.
  - split; [destruct (webhook_of env _ _); reflexivity|].
    split; [reflexivity|]. intros H. discriminate H.
Qed.

(** A quantity of [2 ^ 1024], in the calm environment. *)
Lemma execute_trade_overflow_witness :
  fst oversized_buy
  = Raise (OverflowError "int too large to convert to float")
  /\ daily_trades (snd oversized_buy) = [].
Proof.
  destruct (execute_trade_overflow calm TradingBot.init "AAPL" (2 ^ 1024)
              "buy" 50 ltac:(vm_compute; discriminate))
    as (_ & Ht & Ho).
  destruct (Ho eq_refl) as [_ Hr].
  split; [exact (Hr eq_refl) | exact Ht].
Defined.

(** X8.  Whatever happens, [execute_trade] first places exactly one order, the
    market order for its arguments, before any other effect.  After it come
    at most two effects, each a webhook call or the append: no clock query,
    no account fetch, no log line.  The append is there exactly when the
    call returns. *)
Theorem execute_trade_one_order (env : Env) (w : World)
    (sym : string) (qty : Z) (side : string) (px : float) :
  let out := TradingBot.execute_trade sym qty side px env w in
  exists rest,
    effects (snd out)
    = effects w ++ ESubmitOrder (TradingBot.market_order sym qty side) :: rest
    /\ (List.length rest <= 2)%nat
    /\ Forall (fun ev => is_webhook_call ev = true \/ is_append ev = true)
         rest
    /\ count is_append rest = (if is_raise (fst out) then 0 else 1)%nat.
Proof.
  cbv zeta. rewrite execute_trade_cases. cbv zeta. unfold after_failure.
  destruct (order_of env (effects w) _) as [[]|e0].
  - destruct (Py.float_mul_int px qty) as [tot|e0].
    + cbn [record_effect effects].
      destruct (webhook_of env _ (DiscordNotifier.trade_alert_embed _))
        as [[]|e0]; cbn [fst snd record_effect effects].
      * eexists. rewrite app_snoc3. split; [reflexivity|].
        split; [cbn; lia|]. split; [|reflexivity].
        repeat constructor; (now left) || (now right).
      * eexists. rewrite app_snoc3. split; [reflexivity|].
        split; [cbn; lia|].
        split; [repeat constructor; now left|].
        destruct (webhook_of env _ (failure_alert e0)); reflexivity.
    + cbn [fst snd record_effect effects]. eexists. rewrite app_snoc2.
      split; [reflexivity|]. split; [cbn; lia|].
      split; [repeat constructor; now left|].
      destruct (webhook_of env _ (failure_alert e0)); reflexivity.
  - cbn [fst snd record_effect effects]. eexists. rewrite app_snoc2.
    split; [reflexivity|]. split; [cbn; lia|].
    split; [repeat constructor; now left|].
    destruct (webhook_of env _ (failure_alert e0)); reflexivity.
Qed.

(** ** The ledger after a sequence of calls *)

Lemma perform_returned (c : BotCall) (env : Env) (w : World) :
  daily_trades (perform c env w) = daily_trades w ++ returned_by c env w.
Proof.
  destruct c as [|sym qty side px| |]; cbn [perform returned_by].
  - rewrite app_nil_r. apply keeps_check_market_hours.
  - pose proof (execute_trade_trades env w sym qty side px) as H.
    cbv zeta in H.
    destruct (fst (TradingBot.execute_trade sym qty side px env w)) as [t|e].
    + exact H.
    + rewrite app_nil_r. exact H.
  - rewrite app_nil_r. apply keeps_send_daily_summary.
  - rewrite app_nil_r. apply keeps_run.
Qed.

(** X9.  After any sequence of calls on the bot, in any environment, the ledger
    is the earlier ledger followed by exactly the records that the calls of
    [execute_trade] returned, in call order: a trade that raised left no
    record, and no other call left one. *)
Theorem ledger_is_returned_records (cs : list BotCall) (env : Env) :
  forall w,
    daily_trades (perform_all cs env w)
    = daily_trades w ++ returned_by_all cs env w.
Proof.
  induction cs as [|c cs IH]; intros w; cbn [perform_all returned_by_all].
  - symmetry. apply app_nil_r.
  - rewrite IH, perform_returned, app_assoc. reflexivity.
Qed.

(** ** More on send_daily_summary *)

(** X10.  [send_daily_summary] returns exactly when the account is fetched, its
    last equity is not zero and the webhook takes the summary of the ledger;
    the win rate never stands in the way, whatever the ledger holds.  It
    always fetches the account first and makes at most one webhook call. *)
Theorem send_daily_summary_returns_iff (env : Env) (w : World) :
  let out := TradingBot.send_daily_summary env w in
  (fst out = Return tt
   <-> exists account,
         account_of env (effects w) = Return account
         /\ PrimFloat.eqb (last_equity account) 0 = false
         /\ webhook_of env (effects w ++ [EGetAccount])
              (DiscordNotifier.daily_summary_embed
                 (summary_of account (daily_trades w))) = Return tt)
  /\ exists new,
       effects (snd out) = effects w ++ EGetAccount :: new
       /\ (List.length new <= 1)%nat
       /\ count is_webhook_call new = List.length new.
Proof.
  cbv zeta. split.
  - destruct (account_of env (effects w)) as [account|e] eqn:Ha.
    + rewrite (send_daily_summary_cases env w account Ha). cbv zeta.
      destruct (PrimFloat.eqb (last_equity account) 0) eqn:Hle;
        cbn [fst record_effect effects].
      * split; [intros H; discriminate H|].
        intros (a & Ha' & Hle' & _). injection Ha' as <-. congruence.
      * split.
        -- intros H. exists account. repeat split; assumption.
        -- intros (a & Ha' & _ & Hw). injection Ha' as <-. exact Hw.
    + rewrite (send_daily_summary_fetch_failure env w e Ha). cbn [fst].
      split; [intros H; discriminate H|].
      intros (a & Ha' & _). discriminate Ha'.
  - destruct (send_daily_summary_effects env w) as (new & E & Hnew).
    exists new. split; [exact E|].
    destruct Hnew as [->|(account & _ & _ & ->)]; cbn; split; lia.
Qed.

Lemma wins_app (account : Account) (l : list TradeInfo) (t : TradeInfo) :
  wins account (l ++ [t])
  = wins account l + (if TradingBot.counts_as_win account t then 1 else 0).
Proof.
  unfold wins. rewrite filter_app, length_app. cbn [filter].
  destruct (TradingBot.counts_as_win account t); cbn [List.length]; lia.
Qed.

Lemma len_app (l : list TradeInfo) (t : TradeInfo) :
  Py.len (l ++ [t]) = Py.len l + 1.
Proof. unfold Py.len. rewrite length_app. cbn [List.length]. lia. Qed.

(** X11.  A summary sent after a trade went through counts it: it reports one
    trade more than the ledger held before the trade, and one win more
    exactly when the new record counts as a win against the account fetched
    for the summary. *)
Theorem summary_after_trade (env : Env) (w : World)
    (sym : string) (qty : Z) (side : string) (px : float)
    (t : TradeInfo) (w1 : World) (account : Account) :
  TradingBot.execute_trade sym qty side px env w = (Return t, w1) ->
  account_of env (effects w1) = Return account ->
  PrimFloat.eqb (last_equity account) 0 = false ->
  let s := summary_of account (daily_trades w ++ [t]) in
  effects (snd (TradingBot.send_daily_summary env w1))
  = effects w1 ++
    [EGetAccount; EWebhookSend (DiscordNotifier.daily_summary_embed s)]
  /\ total_trades s = Py.len (daily_trades w) + 1
  /\ wins account (daily_trades w ++ [t])
     = wins account (daily_trades w)
       + (if TradingBot.counts_as_win account t then 1 else 0)
  /\ win_rate s
     = Py.Float
         (PrimFloat.mul
            (nearest_ratio (wins account (daily_trades w ++ [t]))
               (Py.len (daily_trades w) + 1))
            100).
Proof.
  intros Hexec Ha Hle s.
  destruct (execute_trade_success _ _ _ _ _ _ _ _ Hexec)
    as (tot & _ & _ & _ & _ & Hw1).
  assert (Ht : daily_trades w1 = daily_trades w ++ [t])
    by (rewrite Hw1; reflexivity).
  rewrite (send_daily_summary_cases env w1 account Ha), Hle.
  cbn [snd record_effect effects]. rewrite app_snoc2, Ht.
  split; [reflexivity|]. split; [apply len_app|].
  split; [apply wins_app|].
  subst s. cbn [win_rate summary_of]. unfold win_rate_of.
  rewrite len_app. destruct (daily_trades w); reflexivity.
Qed.

(** The sample trade, then the summary, in the calm environment. *)
Lemma summary_after_trade_witness :
  effects (snd (TradingBot.send_daily_summary calm (snd sample_buy)))
  = effects (snd sample_buy) ++
    [EGetAccount;
     EWebhookSend
       (DiscordNotifier.daily_summary_embed
          (summary_of sample_account [sample_trade]))]
  /\ total_trades (summary_of sample_account [sample_trade]) = 1.
Proof.
  assert (Hexec : sample_buy = (Return sample_trade, snd sample_buy))
    by (vm_compute; reflexivity).
  destruct (summary_after_trade calm TradingBot.init "AAPL" 10 "buy" 50
              sample_trade (snd sample_buy) sample_account
              Hexec eq_refl eq_refl)
    as (He & Hn & _).
  split; [exact He | exact Hn].
Defined.

Lemma wins_perm (account : Account) (l l' : list TradeInfo) :
  Permutation l l' -> wins account l = wins account l'.
Proof.
  unfold wins. intros H. f_equal.
  induction H as [|t l l' _ IH|t u l|l l' l'' _ IH1 _ IH2]; cbn [filter].
  - reflexivity.
  - destruct (TradingBot.counts_as_win account t); cbn [List.length];
      now rewrite IH.
  - destruct (TradingBot.counts_as_win account t),
      (TradingBot.counts_as_win account u); reflexivity.
  - now rewrite IH1.
Qed.

Lemma summary_of_perm (account : Account) (l l' : list TradeInfo) :
  Permutation l l' -> summary_of account l = summary_of account l'.
Proof.
  intros H. unfold summary_of, win_rate_of, Py.len.
  rewrite (wins_perm account l l' H), (Permutation_length H).
  destruct l as [|t l], l' as [|t' l']; try reflexivity.
  - apply Permutation_nil in H. discriminate H.
  - apply Permutation_sym, Permutation_nil in H. discriminate H.
Qed.

(** X12.  The summary does not depend on the order of the ledger: two ledgers
    with the same records in a different order give the same outcome and the
    same message, in the same environment and after the same history. *)
Theorem summary_ignores_order (env : Env) (h : list Effect)
    (l l' : list TradeInfo) :
  Permutation l l' ->
  let out := TradingBot.send_daily_summary env
               {| daily_trades := l; effects := h |} in
  let out' := TradingBot.send_daily_summary env
                {| daily_trades := l'; effects := h |} in
  fst out = fst out' /\ effects (snd out) = effects (snd out').
Proof.
  intros H out out'. subst out out'.
  destruct (account_of env h) as [account|e] eqn:Ha.
  - rewrite (send_daily_summary_cases env {| daily_trades := l |} account Ha),
      (send_daily_summary_cases env {| daily_trades := l' |} account Ha).
    cbn [daily_trades]. rewrite (summary_of_perm account l l' H).
    destruct (PrimFloat.eqb (last_equity account) 0); split; reflexivity.
  - rewrite (send_daily_summary_fetch_failure env {| daily_trades := l |} e Ha),
      (send_daily_summary_fetch_failure env {| daily_trades := l' |} e Ha).
    split; reflexivity.
Qed.

(** A BUY and a SELL, in either order. *)
Lemma summary_ignores_order_witness :
  fst (TradingBot.send_daily_summary calm
         {| daily_trades := [sample_trade; sample_sell]; effects := [] |})
  = fst (TradingBot.send_daily_summary calm
           {| daily_trades := [sample_sell; sample_trade]; effects := [] |}).
Proof.
  exact (proj1 (summary_ignores_order calm [] [sample_trade; sample_sell]
                  [sample_sell; sample_trade] (perm_swap _ _ _))).
Defined.

Lemma wins_none (account : Account) (l : list TradeInfo) :
  (forall t, In t l -> ~ spec_winning (equity account) t) ->
  wins account l = 0.
Proof.
  intros H. unfold wins.
  induction l as [|t l IH]; [reflexivity|]. cbn [filter].
  destruct (TradingBot.counts_as_win account t) eqn:E.
  - exfalso. apply (H t (or_introl eq_refl)). now apply counts_as_win_spec.
  - apply IH. intros u Hu. apply H. now right.
Qed.

Lemma nearest_ratio_zero (n : nat) : nearest_ratio 0 (Z.of_nat (S n)) = 0%float.
Proof. reflexivity. Qed.

(** X13.  A ledger that is not empty and holds no winning trade (for one, trades
    that are neither BUY nor SELL) gets the float win rate 0.0, where the
    empty ledger gets the integer 0. *)
Theorem summary_without_wins (env : Env) (w : World) (account : Account) :
  account_of env (effects w) = Return account ->
  PrimFloat.eqb (last_equity account) 0 = false ->
  daily_trades w <> [] ->
  (forall t, In t (daily_trades w) -> ~ spec_winning (equity account) t) ->
  let s := summary_of account (daily_trades w) in
  effects (snd (TradingBot.send_daily_summary env w))
  = effects w ++
    [EGetAccount; EWebhookSend (DiscordNotifier.daily_summary_embed s)]
  /\ win_rate s = Py.Float 0
  /\ (forall t, action t <> "BUY"%string -> action t <> "SELL"%string ->
                ~ spec_winning (equity account) t).
Proof.
  intros Ha Hle Hne Hnone s.
  rewrite (send_daily_summary_cases env w account Ha), Hle.
  cbn [snd record_effect effects]. rewrite app_snoc2.
  split; [reflexivity|]. split.
  - subst s. cbn [win_rate summary_of]. unfold win_rate_of.
    rewrite (wins_none account _ Hnone).
    destruct (daily_trades w) as [|t l]; [contradiction|].
    unfold Py.len. cbn [List.length]. rewrite nearest_ratio_zero.
    reflexivity.
  - intros t Hb Hs [[H _]|[H _]]; contradiction.
Qed.

(** A ledger of one trade that is neither a BUY nor a SELL. *)
Lemma summary_without_wins_witness :
  win_rate (summary_of sample_account [sample_hold]) = Py.Float 0.
Proof.
  assert (Hnone : forall t, In t [sample_hold] ->
                            ~ spec_winning (equity sample_account) t).
  { intros t [<-|[]] [[H _]|[H _]]; discriminate H. }
  exact (proj1 (proj2
    (summary_without_wins calm
       {| daily_trades := [sample_hold]; effects := [] |} sample_account
       eq_refl eq_refl ltac:(discriminate) Hnone))).
Defined.

(** ** Cycles that fail *)

Lemma run_clock_failure_eq (env : Env) (w : World) (e : PyExn) :
  clock_of env (effects w) = Raise e ->
  TradingBot.run env w = after_run_failure env e (record_effect EGetClock w).
Proof.
  intros Hc. rewrite run_try. unfold run_body, TradingBot.check_market_hours.
  unfold bind at 1. unfold bind at 1. unfold api_get_clock at 1.
  rewrite Hc. reflexivity.
Qed.

(** An open market, the account fetched and the session announced: the rest
    of the cycle is the summary under the catch-all. *)
Lemma run_summary_stage (env : Env) (w : World) (a1 : Account) :
  clock_of env (effects w) = Return {| is_open := true |} ->
  account_of env (effects w ++ [EGetClock]) = Return a1 ->
  webhook_of env (effects w ++ [EGetClock; EGetAccount])
    (session_started_embed a1) = Return tt ->
  TradingBot.run env w =
  match
    TradingBot.send_daily_summary env
      (record_effect (EWebhookSend (session_started_embed a1))
         (record_effect EGetAccount (record_effect EGetClock w)))
  with
  | (Return a, w1) => (Return a, w1)
  | (Raise e, w1) => after_run_failure env e w1
  end.
Proof.
  intros Hc Ha1 Hs.
  rewrite run_try. unfold run_body, TradingBot.check_market_hours.
  unfold bind at 1. unfold bind at 1. unfold api_get_clock at 1.
  rewrite Hc. unfold ret. cbn [is_open negb].
  unfold bind at 1. unfold api_get_account at 1.
  cbn [record_effect effects]. rewrite Ha1.
  unfold bind at 1. unfold DiscordNotifier.send_message, webhook_send.
  cbn [record_effect effects daily_trades].
  rewrite app_snoc2. fold (session_started_embed a1). rewrite Hs.
  reflexivity.
Qed.

(** X14.  The clock query fails: [run] makes no other brokerage call and sends
    no notice of its own; it reports the failure through the catch-all and
    raises. *)
Theorem run_clock_failure (env : Env) (w : World) (e : PyExn) :
  clock_of env (effects w) = Raise e ->
  let out := TradingBot.run env w in
  let alert := run_failure_alert e in
  exists tail,
    effects (snd out) = effects w ++ [EGetClock; EWebhookSend alert] ++ tail
    /\ is_raise (fst out) = true
    /\ match webhook_of env (effects w ++ [EGetClock]) alert with
       | Return _ => tail = [run_failure_log e] /\ fst out = Raise e
       | Raise e' => tail = [] /\ fst out = Raise e'
       end.
Proof.
  intros Hc out alert. subst out alert.
  rewrite (run_clock_failure_eq env w e Hc). unfold after_run_failure.
  cbn [record_effect effects].
  destruct (webhook_of env (effects w ++ [EGetClock]) (run_failure_alert e))
    as [[]|e']; cbn [fst snd record_effect effects]; eexists.
  - rewrite app_snoc3. repeat split.
  - rewrite app_snoc2. repeat split.
Qed.

(** The brokerage is unreachable and the webhook works. *)
Lemma run_clock_failure_witness :
  fst (TradingBot.run
         {| clock_of := fun _ => Raise outage;
            account_of := fun _ => Raise outage;
            order_of := fun _ _ => Raise outage;
            webhook_of := fun _ _ => Return tt |} TradingBot.init)
  = Raise outage.
Proof.
  destruct (run_clock_failure
              {| clock_of := fun _ => Raise outage;
                 account_of := fun _ => Raise outage;
                 order_of := fun _ _ => Raise outage;
                 webhook_of := fun _ _ => Return tt |}
              TradingBot.init outage eq_refl)
    as (tail & _ & _ & H).
  cbn [webhook_of] in H. exact (proj2 H).
Defined.

(** X15.  The market is open and the account's last equity is zero at summary
    time: the session is announced, then the summary stops on the division,
    no summary goes out, and the catch-all reports the [ZeroDivisionError]
    and raises. *)
Theorem run_division_by_zero (env : Env) (w : World) (a1 a2 : Account) :
  let session := EWebhookSend (session_started_embed a1) in
  let e := ZeroDivisionError "float division by zero" in
  let alert := run_failure_alert e in
  let steps := [EGetClock; EGetAccount; session; EGetAccount] in
  clock_of env (effects w) = Return {| is_open := true |} ->
  account_of env (effects w ++ [EGetClock]) = Return a1 ->
  webhook_of env (effects w ++ [EGetClock; EGetAccount])
    (session_started_embed a1) = Return tt ->
  account_of env (effects w ++ [EGetClock; EGetAccount; session])
  = Return a2 ->
  PrimFloat.eqb (last_equity a2) 0 = true ->
  let out := TradingBot.run env w in
  exists tail,
    effects (snd out) = effects w ++ steps ++ [EWebhookSend alert] ++ tail
    /\ is_raise (fst out) = true
    /\ match webhook_of env (effects w ++ steps) alert with
       | Return _ => tail = [run_failure_log e] /\ fst out = Raise e
       | Raise e' => tail = [] /\ fst out = Raise e'
       end.
Proof.
  intros session e alert steps Hc Ha1 Hs Ha2 Hle out.
  subst session e alert steps out.
  rewrite (run_summary_stage env w a1 Hc Ha1 Hs).
  rewrite <- app_snoc3 in Ha2.
  match goal with
  | |- context [TradingBot.send_daily_summary env ?w0] =>
      rewrite (send_daily_summary_cases env w0 a2 Ha2)
  end.
  rewrite Hle. unfold after_run_failure.
  cbn [record_effect effects daily_trades].
  rewrite <- !app_assoc. cbn [app].
  destruct (webhook_of env _ (run_failure_alert _)) as [[]|e'];
    cbn [fst snd effects]; eexists;
    unfold record_effect; cbn [effects daily_trades];
    rewrite <- !app_assoc; cbn [app]; repeat split.
Qed.

(** The calm environment with a last equity of zero. *)
Lemma run_division_by_zero_witness :
  fst (main (calm_env true 10500 0))
  = Raise (ZeroDivisionError "float division by zero").
Proof.
  destruct (run_division_by_zero (calm_env true 10500 0) TradingBot.init
              {| equity := 10500; last_equity := 0 |}
              {| equity := 10500; last_equity := 0 |}
              eq_refl eq_refl eq_refl eq_refl eq_refl)
    as (tail & _ & _ & H).
  cbn [webhook_of calm_env] in H. exact (proj2 H).
Defined.
